(** * Bitcoin addresses: payloads, prefixes, rendering and parsing

    A shallow embedding of [src/util/address.rs]: witness versions, address
    payloads, the per-coin prefix selection, [Display] and [FromStr] for
    [Address], and the network-compatibility check.

    Bytes are [Byte.byte] (a Rust [u8]); a Rust [&str] is a [string] read as
    its UTF-8 bytes, so [String.length] is Rust's [str::len].  The Base58Check
    and Bech32 codecs, the hash functions, the key tweak and the version-byte
    constants of [blockdata/constants.rs] are outside this file's source and
    enter as Section parameters with their contracts. *)

From Stdlib Require Import Bool Arith Lia List String Ascii.
From Stdlib Require Import Strings.Byte.
Import ListNotations.
Open Scope string_scope.
Open Scope list_scope.
Open Scope nat_scope.

(** ** Results and the [?] operator *)

Inductive result (A E : Type) : Type :=
| Ok : A -> result A E
| Err : E -> result A E.
Arguments Ok {A E} _.
Arguments Err {A E} _.

Definition bind {A B E} (m : result A E) (k : A -> result B E) : result B E :=
  match m with
  | Ok a => k a
  | Err e => Err e
  end.

Definition map_err {A E F} (f : E -> F) (m : result A E) : result A F :=
  match m with
  | Ok a => Ok a
  | Err e => Err (f e)
  end.

Notation "'let*' x := m 'in' k" := (bind m (fun x => k))
  (at level 200, x name, m at level 100, k at level 200).

Definition is_ok {A E} (m : result A E) : bool :=
  match m with Ok _ => true | Err _ => false end.

(** ** External error types *)

(** Checksum algorithm of a Bech32 string ([bech32::Variant]). *)
Inductive Variant := Bech32 | Bech32m.

Definition variant_eqb (a b : Variant) : bool :=
  match a, b with
  | Bech32, Bech32 | Bech32m, Bech32m => true
  | _, _ => false
  end.

(** [bech32::Error]: the codec's own error kinds. *)
Inductive bech32_Error :=
| MissingSeparator
| InvalidChecksum
| InvalidChar (c : ascii)
| InvalidData (b : byte)
| InvalidPadding
| MixedCase
| B32InvalidLength.

(** [base58::Error]: the two kinds raised by this file and the codec's own. *)
Inductive base58_Error :=
| BadByte (b : byte)
| BadChecksum
| InvalidLength (n : nat)
| InvalidAddressVersion (b : byte)
| TooShort (n : nat).

(** ** [address::Error] *)
Inductive Error :=
| Base58 (e : base58_Error)
| Bech32e (e : bech32_Error)
| EmptyBech32Payload
| InvalidBech32Variant (expected found : Variant)
| InvalidWitnessVersion (v : byte)
| UnparsableWitnessVersion
| MalformedWitnessVersion
| InvalidWitnessProgramLength (n : nat)
| InvalidSegwitV0ProgramLength (n : nat)
| UncompressedPubkey
| ExcessiveScriptSize
| UnrecognizedScript
| UnknownAddressType (s : string).

(** ** [AddressType] *)
Inductive AddressType := P2pkh | P2sh | P2wpkh | P2wsh | P2tr.

(** ** [WitnessVersion] *)
Inductive WitnessVersion :=
| V0 | V1 | V2 | V3 | V4 | V5 | V6 | V7 | V8
| V9 | V10 | V11 | V12 | V13 | V14 | V15 | V16.

Definition WitnessVersion_eqb (a b : WitnessVersion) : bool :=
  match a, b with
  | V0, V0 | V1, V1 | V2, V2 | V3, V3 | V4, V4 | V5, V5 | V6, V6
  | V7, V7 | V8, V8 | V9, V9 | V10, V10 | V11, V11 | V12, V12
  | V13, V13 | V14, V14 | V15, V15 | V16, V16 => true
  | _, _ => false
  end.

(** [WitnessVersion::to_num]: [self as u8]. *)
Definition to_num (v : WitnessVersion) : byte :=
  match v with
  | V0 => x00 | V1 => x01 | V2 => x02 | V3 => x03 | V4 => x04
  | V5 => x05 | V6 => x06 | V7 => x07 | V8 => x08 | V9 => x09
  | V10 => x0a | V11 => x0b | V12 => x0c | V13 => x0d | V14 => x0e
  | V15 => x0f | V16 => x10
  end.

(** [WitnessVersion::bech32_variant]. *)
Definition bech32_variant (v : WitnessVersion) : Variant :=
  match v with
  | V0 => Bech32
  | _ => Bech32m
  end.

(** [impl TryFrom<u8> for WitnessVersion]. *)
Definition try_from_u8 (no : byte) : result WitnessVersion Error :=
  match no with
  | x00 => Ok V0 | x01 => Ok V1 | x02 => Ok V2 | x03 => Ok V3
  | x04 => Ok V4 | x05 => Ok V5 | x06 => Ok V6 | x07 => Ok V7
  | x08 => Ok V8 | x09 => Ok V9 | x0a => Ok V10 | x0b => Ok V11
  | x0c => Ok V12 | x0d => Ok V13 | x0e => Ok V14 | x0f => Ok V15
  | x10 => Ok V16
  | wrong => Err (InvalidWitnessVersion wrong)
  end.

(** [bech32::u5]: a 5-bit symbol, carried in a byte ([u5::to_u8]). *)
Definition u5 := byte.

(** [impl TryFrom<bech32::u5> for WitnessVersion]: [try_from(value.to_u8())]. *)
Definition try_from_u5 (value : u5) : result WitnessVersion Error :=
  try_from_u8 value.

(** [impl From<WitnessVersion> for bech32::u5]. *)
Definition u5_of_version (v : WitnessVersion) : u5 := to_num v.

(** [impl TryFrom<opcodes::All> for WitnessVersion]: [OP_0] is version 0,
    [OP_PUSHNUM_1] (0x51) .. [OP_PUSHNUM_16] (0x60) are versions 1 .. 16. *)
Definition try_from_opcode (op : byte) : result WitnessVersion Error :=
  let n := Byte.to_nat op in
  if Nat.eqb n 0 then Ok V0
  else if (81 <=? n) && (n <=? 96) then
    match Byte.of_nat (n - 81 + 1) with
    | Some b => try_from_u8 b
    | None => Err MalformedWitnessVersion
    end
  else Err MalformedWitnessVersion.

(** [impl From<WitnessVersion> for opcodes::All]. *)
Definition opcode_of_version (v : WitnessVersion) : byte :=
  match v with
  | V0 => x00
  | _ => match Byte.of_nat (81 + Byte.to_nat (to_num v) - 1) with
         | Some b => b
         | None => x00
         end
  end.

(** ** Networks and blockchains *)

(** [network::constants::Network]. *)
Module Network.
Inductive t := Bitcoin | Testnet | Signet | Regtest.

Definition eqb (a b : t) : bool :=
  match a, b with
  | Bitcoin, Bitcoin | Testnet, Testnet | Signet, Signet | Regtest, Regtest => true
  | _, _ => false
  end.

(** [impl Display for Network] (network/constants.rs); it only appears
    inside the placeholder prefix of [Prefix::from_payload]. *)
Definition to_string (n : t) : string :=
  match n with
  | Bitcoin => "bitcoin" | Testnet => "testnet"
  | Signet => "signet" | Regtest => "regtest"
  end.
End Network.

(** [Blockchain]: the supported coins. *)
Module Blockchain.
Inductive t := Bitcoin | Dogecoin | Litecoin | Stratis.

(** [impl Display for Blockchain]. *)
Definition to_string (c : t) : string :=
  match c with
  | Bitcoin => "Bitcoin" | Dogecoin => "Dogecoin"
  | Litecoin => "Litecoin" | Stratis => "Stratis"
  end.
End Blockchain.

(** ** Scripts *)

(** [script::Script]: the raw bytes of an output script. *)
Definition script := list byte.

Definition byte_at (s : script) (i : nat) : byte := nth i s x00.

(** Modelled from the spec: the shape tests of [script::Script]
    (blockdata/script.rs, not part of this source), from the layouts of
    section 6: P2PKH = [OP_DUP OP_HASH160 <20 bytes> OP_EQUALVERIFY
    OP_CHECKSIG]; P2SH = [OP_HASH160 <20 bytes> OP_EQUAL]; witness program
    = [<version-op> <push of 2..40 bytes>]; the two v0 shapes push a 20-byte
    or a 32-byte hash. Opcode values: OP_0 = 0x00, OP_PUSHBYTES_n = n,
    OP_PUSHNUM_1..16 = 0x51..0x60, OP_DUP = 0x76, OP_HASH160 = 0xa9,
    OP_EQUAL = 0x87, OP_EQUALVERIFY = 0x88, OP_CHECKSIG = 0xac. *)
Definition is_p2pkh (s : script) : bool :=
  Nat.eqb (List.length s) 25
  && Byte.eqb (byte_at s 0) x76 && Byte.eqb (byte_at s 1) xa9
  && Byte.eqb (byte_at s 2) x14 && Byte.eqb (byte_at s 23) x88
  && Byte.eqb (byte_at s 24) xac.

Definition is_p2sh (s : script) : bool :=
  Nat.eqb (List.length s) 23
  && Byte.eqb (byte_at s 0) xa9 && Byte.eqb (byte_at s 1) x14
  && Byte.eqb (byte_at s 22) x87.

Definition is_witness_program (s : script) : bool :=
  let ver := Byte.to_nat (byte_at s 0) in
  let push := Byte.to_nat (byte_at s 1) in
  (4 <=? List.length s) && (List.length s <=? 42)
  && (Nat.eqb ver 0 || ((81 <=? ver) && (ver <=? 96)))
  && (2 <=? push) && (push <=? 40)
  && Nat.eqb (List.length s - 2) push.

Definition is_v0_p2wpkh (s : script) : bool :=
  Nat.eqb (List.length s) 22 && Byte.eqb (byte_at s 0) x00 && Byte.eqb (byte_at s 1) x14.

Definition is_v0_p2wsh (s : script) : bool :=
  Nat.eqb (List.length s) 34 && Byte.eqb (byte_at s 0) x00 && Byte.eqb (byte_at s 1) x20.

(** [Script::witness_version]: the first opcode read as a version. *)
Definition witness_version (s : script) : option WitnessVersion :=
  match s with
  | [] => None
  | b :: _ => match try_from_opcode b with Ok v => Some v | Err _ => None end
  end.

(** [Builder::push_slice] for the short pushes used here
    ([OP_PUSHBYTES_n] then the [n] bytes, [n] < 76). *)
Definition push_slice (data : list byte) : list byte :=
  match Byte.of_nat (List.length data) with
  | Some n => n :: data
  | None => data
  end.

(** Modelled from the spec: [Script::new_p2pkh], [Script::new_p2sh] and
    [Script::new_witness_program], the canonical scripts of section 6. *)
Definition new_p2pkh (h : list byte) : script := [x76; xa9; x14] ++ h ++ [x88; xac].
Definition new_p2sh (h : list byte) : script := [xa9; x14] ++ h ++ [x87].
Definition new_witness_program (v : WitnessVersion) (prog : list byte) : script :=
  opcode_of_version v :: push_slice prog.

(** ** [Payload] *)
Inductive Payload :=
| PubkeyHash (hash : list byte)
| ScriptHash (hash : list byte)
| WitnessProgram (version : WitnessVersion) (program : list byte).

(** [Payload::from_script]. *)
Definition Payload_from_script (s : script) : result Payload Error :=
  if is_p2pkh s then Ok (PubkeyHash (firstn 20 (skipn 3 s)))
  else if is_p2sh s then Ok (ScriptHash (firstn 20 (skipn 2 s)))
  else if is_witness_program s then
    if (match witness_version s with Some V0 => true | _ => false end)
       && negb (is_v0_p2wpkh s || is_v0_p2wsh s)
    then Err (InvalidSegwitV0ProgramLength (List.length s - 2))
    else
      let* version := try_from_opcode (byte_at s 0) in
      Ok (WitnessProgram version (skipn 2 s))
  else Err UnrecognizedScript.

(** [Payload::script_pubkey]. *)
Definition script_pubkey (p : Payload) : script :=
  match p with
  | PubkeyHash h => new_p2pkh h
  | ScriptHash h => new_p2sh h
  | WitnessProgram v prog => new_witness_program v prog
  end.

(** [Payload::as_bytes]. *)
Definition as_bytes (p : Payload) : list byte :=
  match p with
  | ScriptHash h | PubkeyHash h => h
  | WitnessProgram _ prog => prog
  end.

(** ** Version bytes *)

(** Modelled from the spec: the Base58 version-byte constants of
    blockdata/constants.rs, not part of this source.  Section 4.6 describes
    them as "a table covering every supported coin's mainnet/testnet version
    bytes" whose entry for a byte selects "both the resulting Network and
    whether the remaining 20 bytes are a pubkey-hash or script-hash payload";
    their values are not given, so the table is a parameter and that
    reading is the predicate [table_functional] below. *)
Record PrefixTable := {
  BITCOIN_PUBKEY_ADDRESS_PREFIX_MAIN : byte;
  BITCOIN_PUBKEY_ADDRESS_PREFIX_TEST : byte;
  BITCOIN_SCRIPT_ADDRESS_PREFIX_MAIN : byte;
  BITCOIN_SCRIPT_ADDRESS_PREFIX_TEST : byte;
  DOGECOIN_PUBKEY_ADDRESS_PREFIX_MAIN : byte;
  DOGECOIN_PUBKEY_ADDRESS_PREFIX_TEST : byte;
  DOGECOIN_SCRIPT_ADDRESS_PREFIX_MAIN : byte;
  DOGECOIN_SCRIPT_ADDRESS_PREFIX_TEST : byte;
  LITECOIN_PUBKEY_ADDRESS_PREFIX_MAIN : byte;
  LITECOIN_PUBKEY_ADDRESS_PREFIX_TEST : byte;
  LITECOIN_SCRIPT_ADDRESS_PREFIX_MAIN : byte;
  LITECOIN_SCRIPT_ADDRESS_PREFIX_TEST : byte;
  STRATIS_PUBKEY_ADDRESS_PREFIX_MAIN : byte;
  STRATIS_PUBKEY_ADDRESS_PREFIX_TEST : byte;
  STRATIS_SCRIPT_ADDRESS_PREFIX_MAIN : byte;
  STRATIS_SCRIPT_ADDRESS_PREFIX_TEST : byte
}.

(** The four arms of the version-byte [match] in [Address::from_str]. *)
Definition pubkey_main (C : PrefixTable) : list byte :=
  [BITCOIN_PUBKEY_ADDRESS_PREFIX_MAIN C; DOGECOIN_PUBKEY_ADDRESS_PREFIX_MAIN C;
   LITECOIN_PUBKEY_ADDRESS_PREFIX_MAIN C; STRATIS_PUBKEY_ADDRESS_PREFIX_MAIN C].
Definition script_main (C : PrefixTable) : list byte :=
  [BITCOIN_SCRIPT_ADDRESS_PREFIX_MAIN C; DOGECOIN_SCRIPT_ADDRESS_PREFIX_MAIN C;
   LITECOIN_SCRIPT_ADDRESS_PREFIX_MAIN C; STRATIS_SCRIPT_ADDRESS_PREFIX_MAIN C].
Definition pubkey_test (C : PrefixTable) : list byte :=
  [BITCOIN_PUBKEY_ADDRESS_PREFIX_TEST C; DOGECOIN_PUBKEY_ADDRESS_PREFIX_TEST C;
   LITECOIN_PUBKEY_ADDRESS_PREFIX_TEST C; STRATIS_PUBKEY_ADDRESS_PREFIX_TEST C].
Definition script_test (C : PrefixTable) : list byte :=
  [BITCOIN_SCRIPT_ADDRESS_PREFIX_TEST C; DOGECOIN_SCRIPT_ADDRESS_PREFIX_TEST C;
   LITECOIN_SCRIPT_ADDRESS_PREFIX_TEST C; STRATIS_SCRIPT_ADDRESS_PREFIX_TEST C].

Definition memb (b : byte) (l : list byte) : bool := existsb (Byte.eqb b) l.

Definition disjoint (l1 l2 : list byte) : bool :=
  forallb (fun b => negb (memb b l2)) l1.

(** A byte of the table selects one network and one payload kind: the four
    arms share no byte. *)
Definition table_functional (C : PrefixTable) : bool :=
  disjoint (pubkey_main C) (script_main C) && disjoint (pubkey_main C) (pubkey_test C)
  && disjoint (pubkey_main C) (script_test C) && disjoint (script_main C) (pubkey_test C)
  && disjoint (script_main C) (script_test C) && disjoint (pubkey_test C) (script_test C).

(** ** [Prefix] *)
Module Prefix.
Inductive t :=
| Pubkey (b : byte)
| Script (b : byte)
| Segwit (hrp : string).
End Prefix.

(** ** [Address] *)
Record Address := {
  payload : Payload;
  network : Network.t;
  prefix : Prefix.t
}.

Section WithTable.
Variable C : PrefixTable.

(** [Prefix::from_payload]. *)
Definition Prefix_from_payload (p : Payload) (network : Network.t) (chain : Blockchain.t)
  : Prefix.t :=
  match p with
  | PubkeyHash _ =>
      Prefix.Pubkey
        match network, chain with
        | Network.Bitcoin, Blockchain.Bitcoin => BITCOIN_PUBKEY_ADDRESS_PREFIX_MAIN C
        | _, Blockchain.Bitcoin => BITCOIN_PUBKEY_ADDRESS_PREFIX_TEST C
        | Network.Bitcoin, Blockchain.Dogecoin => DOGECOIN_PUBKEY_ADDRESS_PREFIX_MAIN C
        | _, Blockchain.Dogecoin => DOGECOIN_PUBKEY_ADDRESS_PREFIX_TEST C
        | Network.Bitcoin, Blockchain.Litecoin => LITECOIN_PUBKEY_ADDRESS_PREFIX_MAIN C
        | _, Blockchain.Litecoin => LITECOIN_PUBKEY_ADDRESS_PREFIX_TEST C
        | Network.Bitcoin, Blockchain.Stratis => STRATIS_PUBKEY_ADDRESS_PREFIX_MAIN C
        | _, Blockchain.Stratis => STRATIS_PUBKEY_ADDRESS_PREFIX_TEST C
        end
  | ScriptHash _ =>
      Prefix.Script
        match network, chain with
        | Network.Bitcoin, Blockchain.Bitcoin => BITCOIN_SCRIPT_ADDRESS_PREFIX_MAIN C
        | _, Blockchain.Bitcoin => BITCOIN_SCRIPT_ADDRESS_PREFIX_TEST C
        | Network.Bitcoin, Blockchain.Dogecoin => DOGECOIN_SCRIPT_ADDRESS_PREFIX_MAIN C
        | _, Blockchain.Dogecoin => DOGECOIN_SCRIPT_ADDRESS_PREFIX_TEST C
        | Network.Bitcoin, Blockchain.Litecoin => LITECOIN_SCRIPT_ADDRESS_PREFIX_MAIN C
        | _, Blockchain.Litecoin => LITECOIN_SCRIPT_ADDRESS_PREFIX_TEST C
        | Network.Bitcoin, Blockchain.Stratis => STRATIS_SCRIPT_ADDRESS_PREFIX_MAIN C
        | _, Blockchain.Stratis => STRATIS_SCRIPT_ADDRESS_PREFIX_TEST C
        end
  | WitnessProgram _ _ =>
      Prefix.Segwit
        match network, chain with
        | Network.Bitcoin, Blockchain.Bitcoin => "bc"
        | Network.Testnet, Blockchain.Bitcoin => "tb"
        | Network.Signet, Blockchain.Bitcoin => "tb"
        | Network.Regtest, Blockchain.Bitcoin => "bcrt"
        | Network.Bitcoin, Blockchain.Litecoin => "ltc"
        | Network.Testnet, Blockchain.Litecoin => "tltc"
        | Network.Bitcoin, Blockchain.Stratis => "STRAX"
        | Network.Testnet, Blockchain.Stratis => "TSTRAX"
        | network, chain =>
            "segwit unsupported for network/chain " ++ Network.to_string network
              ++ "/" ++ Blockchain.to_string chain
        end
  end.

(** The tail shared by every named constructor of [Address]. *)
Definition mk_address (p : Payload) (network : Network.t) (chain : Blockchain.t) : Address :=
  {| payload := p; network := network; prefix := Prefix_from_payload p network chain |}.

(** [Address::from_script]. *)
Definition Address_from_script (s : script) (network : Network.t) (chain : Blockchain.t)
  : result Address Error :=
  let* p := Payload_from_script s in
  Ok (mk_address p network chain).

(** [Address::pubkey_prefix], [Address::script_prefix] and
    [Address::segwit_prefix]. *)
Definition pubkey_prefix (a : Address) : byte :=
  match prefix a with
  | Prefix.Pubkey b => b
  | _ => match network a with
         | Network.Bitcoin => BITCOIN_PUBKEY_ADDRESS_PREFIX_MAIN C
         | Network.Testnet | Network.Signet | Network.Regtest => BITCOIN_PUBKEY_ADDRESS_PREFIX_TEST C
         end
  end.

Definition script_prefix (a : Address) : byte :=
  match prefix a with
  | Prefix.Script b => b
  | _ => match network a with
         | Network.Bitcoin => BITCOIN_SCRIPT_ADDRESS_PREFIX_MAIN C
         | Network.Testnet | Network.Signet | Network.Regtest => BITCOIN_SCRIPT_ADDRESS_PREFIX_TEST C
         end
  end.

End WithTable.

Definition segwit_prefix (a : Address) : string :=
  match prefix a with
  | Prefix.Segwit s => s
  | _ => match network a with
         | Network.Bitcoin => "bc"
         | Network.Testnet | Network.Signet => "tb"
         | Network.Regtest => "bcrt"
         end
  end.

(** [Address::address_type]. *)
Definition address_type (a : Address) : option AddressType :=
  match payload a with
  | PubkeyHash _ => Some P2pkh
  | ScriptHash _ => Some P2sh
  | WitnessProgram version prog =>
      match version with
      | V0 => if Nat.eqb (List.length prog) 20 then Some P2wpkh
              else if Nat.eqb (List.length prog) 32 then Some P2wsh
              else None
      | V1 => if Nat.eqb (List.length prog) 32 then Some P2tr else None
      | _ => None
      end
  end.

(** [Address::is_valid_for_network]. *)
Definition is_valid_for_network (a : Address) (n : Network.t) : bool :=
  let is_legacy := match address_type a with
                   | Some P2pkh | Some P2sh => true
                   | _ => false
                   end in
  if Network.eqb (network a) n then true
  else match network a, n with
       | Network.Bitcoin, _ | _, Network.Bitcoin => false
       | _, _ =>
           match network a, n with
           | Network.Regtest, _ | _, Network.Regtest =>
               if negb is_legacy then false else true
           | _, _ => true
           end
       end.

(** ** Keys and the named constructors *)

Section Constructors.

(** [PublicKey]: its serialization and whether it is compressed. *)
Record PublicKey := { pk_serialize : list byte; pk_compressed : bool }.

(** The hash primitives: hash160 (RIPEMD-160 over SHA-256) and SHA-256. *)
Variable hash160 : list byte -> list byte.
Variable sha256 : list byte -> list byte.
(** The Taproot tweak: the x-only serialization of the output key obtained
    from an internal key (x-only serialization) and an optional Merkle root. *)
Variable tap_tweak : list byte -> option (list byte) -> list byte.

(** [PublicKey::pubkey_hash], [PublicKey::wpubkey_hash] (only for
    compressed keys), [Script::script_hash], [Script::wscript_hash]. *)
Definition pubkey_hash (pk : PublicKey) : list byte := hash160 (pk_serialize pk).
Definition wpubkey_hash (pk : PublicKey) : option (list byte) :=
  if pk_compressed pk then Some (hash160 (pk_serialize pk)) else None.
Definition script_hash (s : script) : list byte := hash160 s.
Definition wscript_hash (s : script) : list byte := sha256 s.

Definition ok_or {A} (o : option A) (e : Error) : result A Error :=
  match o with Some a => Ok a | None => Err e end.

(** [MAX_SCRIPT_ELEMENT_SIZE]. *)
Definition MAX_SCRIPT_ELEMENT_SIZE : nat := 520.

(** [Payload::p2pkh] .. [Payload::p2tr_tweaked]. [push_int(0)] emits OP_0. *)
Definition Payload_p2pkh (pk : PublicKey) : Payload := PubkeyHash (pubkey_hash pk).

Definition Payload_p2sh (s : script) : result Payload Error :=
  if MAX_SCRIPT_ELEMENT_SIZE <? List.length s then Err ExcessiveScriptSize
  else Ok (ScriptHash (script_hash s)).

Definition Payload_p2wpkh (pk : PublicKey) : result Payload Error :=
  let* h := ok_or (wpubkey_hash pk) UncompressedPubkey in
  Ok (WitnessProgram V0 h).

Definition Payload_p2shwpkh (pk : PublicKey) : result Payload Error :=
  let* h := ok_or (wpubkey_hash pk) UncompressedPubkey in
  Ok (ScriptHash (script_hash (x00 :: push_slice h))).

Definition Payload_p2wsh (s : script) : Payload := WitnessProgram V0 (wscript_hash s).

Definition Payload_p2shwsh (s : script) : Payload :=
  ScriptHash (script_hash (x00 :: push_slice (wscript_hash s))).

Definition Payload_p2tr (internal_key : list byte) (merkle_root : option (list byte)) : Payload :=
  WitnessProgram V1 (tap_tweak internal_key merkle_root).

Definition Payload_p2tr_tweaked (output_key : list byte) : Payload :=
  WitnessProgram V1 output_key.

(** The payloads the named constructors of [Payload] return. *)
Inductive payload_constructed : Payload -> Prop :=
| pc_p2pkh pk : payload_constructed (Payload_p2pkh pk)
| pc_p2sh s p : Payload_p2sh s = Ok p -> payload_constructed p
| pc_p2wpkh pk p : Payload_p2wpkh pk = Ok p -> payload_constructed p
| pc_p2shwpkh pk p : Payload_p2shwpkh pk = Ok p -> payload_constructed p
| pc_p2wsh s : payload_constructed (Payload_p2wsh s)
| pc_p2shwsh s : payload_constructed (Payload_p2shwsh s)
| pc_p2tr ik mr : payload_constructed (Payload_p2tr ik mr)
| pc_p2tr_tweaked k :
    (* a [TweakedPublicKey] serializes to 32 bytes *)
    List.length k = 32 -> payload_constructed (Payload_p2tr_tweaked k).

Variable C : PrefixTable.

(** [Address::p2pkh] .. [Address::p2tr_tweaked]. *)
Definition Address_p2pkh pk network chain : Address :=
  mk_address C (Payload_p2pkh pk) network chain.
Definition Address_p2sh s network chain : result Address Error :=
  let* p := Payload_p2sh s in Ok (mk_address C p network chain).
Definition Address_p2wpkh pk network chain : result Address Error :=
  let* p := Payload_p2wpkh pk in Ok (mk_address C p network chain).
Definition Address_p2shwpkh pk network chain : result Address Error :=
  let* p := Payload_p2shwpkh pk in Ok (mk_address C p network chain).
Definition Address_p2wsh s network chain : Address :=
  mk_address C (Payload_p2wsh s) network chain.
Definition Address_p2shwsh s network chain : Address :=
  mk_address C (Payload_p2shwsh s) network chain.
Definition Address_p2tr internal_key merkle_root network chain : Address :=
  mk_address C (Payload_p2tr internal_key merkle_root) network chain.
Definition Address_p2tr_tweaked output_key network chain : Address :=
  mk_address C (Payload_p2tr_tweaked output_key) network chain.

(** The addresses the named constructors return, [Address::from_script]
    included, for a given coin. *)
Inductive constructed (chain : Blockchain.t) : Address -> Prop :=
| c_p2pkh pk n : constructed chain (Address_p2pkh pk n chain)
| c_p2sh s n a : Address_p2sh s n chain = Ok a -> constructed chain a
| c_p2wpkh pk n a : Address_p2wpkh pk n chain = Ok a -> constructed chain a
| c_p2shwpkh pk n a : Address_p2shwpkh pk n chain = Ok a -> constructed chain a
| c_p2wsh s n : constructed chain (Address_p2wsh s n chain)
| c_p2shwsh s n : constructed chain (Address_p2shwsh s n chain)
| c_p2tr ik mr n : constructed chain (Address_p2tr ik mr n chain)
| c_p2tr_tweaked k n :
    (* a [TweakedPublicKey] serializes to 32 bytes *)
    List.length k = 32 -> constructed chain (Address_p2tr_tweaked k n chain)
| c_from_script s n a : Address_from_script C s n chain = Ok a -> constructed chain a.

End Constructors.

(** ** Rendering and parsing *)

(** [str::rfind('1')] followed by [split_at]: the text before and after the
    last ['1'], if there is one. *)
Fixpoint rsplit_1 (s : string) : option (string * string) :=
  match s with
  | EmptyString => None
  | String c rest =>
      match rsplit_1 rest with
      | Some (before, after) => Some (String c before, after)
      | None => if Ascii.eqb c "1"%char then Some (EmptyString, rest) else None
      end
  end.

(** [find_bech32_prefix]. *)
Definition find_bech32_prefix (bech32 : string) : string :=
  match rsplit_1 bech32 with
  | None => bech32
  | Some (before, _) => before
  end.

Definition str_in (s : string) (l : list string) : bool := existsb (String.eqb s) l.

(** The first [match] of [Address::from_str]. *)
Definition bech32_network (prefix : string) : option Network.t :=
  if str_in prefix ["bc"; "BC"; "ltc"; "LTC"; "X"] then Some Network.Bitcoin
  else if str_in prefix ["tb"; "TB"; "tltc"; "TLTC"; "q"] then Some Network.Testnet
  else if str_in prefix ["bcrt"; "BCRT"] then Some Network.Regtest
  else None.

(** [char::to_ascii_uppercase], as used by [UpperWriter]. *)
Definition ascii_upper (c : ascii) : ascii :=
  let n := nat_of_ascii c in
  if (97 <=? n) && (n <=? 122) then ascii_of_nat (n - 32) else c.

Fixpoint string_upper (s : string) : string :=
  match s with
  | EmptyString => EmptyString
  | String c rest => String (ascii_upper c) (string_upper rest)
  end.

(** ASCII lower-casing ([char::to_ascii_lowercase]), for stating
    case-insensitive matches of a prefix. *)
Definition ascii_lower (c : ascii) : ascii :=
  let n := nat_of_ascii c in
  if (65 <=? n) && (n <=? 90) then ascii_of_nat (n + 32) else c.

Fixpoint string_lower (s : string) : string :=
  match s with
  | EmptyString => EmptyString
  | String c rest => String (ascii_lower c) (string_lower rest)
  end.

Section Codec.

Variable C : PrefixTable.

(** The Base58Check codec: [base58::check_encode_slice] and
    [base58::from_check]. *)
Variable b58_check_encode : list byte -> string.
Variable b58_from_check : string -> result (list byte) base58_Error.

(** The Bech32 codec: what [Bech32Writer] writes for an hrp, a symbol
    sequence and a checksum variant; [bech32::decode]; and the 8-to-5 and
    5-to-8 bit regrouping ([ToBase32], [FromBase32]). *)
Variable bech32_encode : string -> list u5 -> Variant -> string.
Variable bech32_decode : string -> result (string * list u5 * Variant) bech32_Error.
Variable to_base32 : list byte -> list u5.
Variable from_base32 : list u5 -> result (list byte) bech32_Error.

(** [impl Display for AddressEncoding]; [alternate] is the [{:#}] flag. *)
Definition AddressEncoding_fmt (alternate : bool) (p : Payload)
    (p2pkh_prefix p2sh_prefix : byte) (bech32_hrp : string) : string :=
  match p with
  | PubkeyHash hash => b58_check_encode (p2pkh_prefix :: hash)
  | ScriptHash hash => b58_check_encode (p2sh_prefix :: hash)
  | WitnessProgram version prog =>
      let out := bech32_encode bech32_hrp (u5_of_version version :: to_base32 prog)
                   (bech32_variant version) in
      if alternate then string_upper out else out
  end.

(** [impl Display for Address]. *)
Definition Address_fmt (alternate : bool) (a : Address) : string :=
  AddressEncoding_fmt alternate (payload a) (pubkey_prefix C a) (script_prefix C a)
    (segwit_prefix a).

(** [a.to_string()]. *)
Definition to_string (a : Address) : string := Address_fmt false a.

(** The Bech32 branch of [Address::from_str]. *)
Definition from_str_bech32 (network : Network.t) (s : string) : result Address Error :=
  match bech32_decode s with
  | Err e => Err (Bech32e e)
  | Ok (hrp, payload, variant) =>
      let prefix := Prefix.Segwit hrp in
      match payload with
      | [] => Err EmptyBech32Payload
      | v :: p5 =>
          let* version := try_from_u5 v in
          let* program := map_err Bech32e (from_base32 p5) in
          let len := List.length program in
          if (len <? 2) || (40 <? len) then Err (InvalidWitnessProgramLength len)
          else if WitnessVersion_eqb version V0 && (negb (len =? 20) && negb (len =? 32))
          then Err (InvalidSegwitV0ProgramLength len)
          else
            let expected := bech32_variant version in
            if negb (variant_eqb expected variant)
            then Err (InvalidBech32Variant expected variant)
            else Ok {| payload := WitnessProgram version program;
                       network := network; prefix := prefix |}
      end
  end.

(** The Base58 branch of [Address::from_str]. *)
Definition from_str_base58 (s : string) : result Address Error :=
  if 50 <? String.length s
  then Err (Base58 (InvalidLength (String.length s * 11 / 15)))
  else
    let* data := map_err Base58 (b58_from_check s) in
    if negb (List.length data =? 21) then Err (Base58 (InvalidLength (List.length data)))
    else
      let prefix_byte := hd x00 data in
      let hash := tl data in
      if memb prefix_byte (pubkey_main C) then
        Ok {| payload := PubkeyHash hash; network := Network.Bitcoin;
              prefix := Prefix.Pubkey prefix_byte |}
      else if memb prefix_byte (script_main C) then
        Ok {| payload := ScriptHash hash; network := Network.Bitcoin;
              prefix := Prefix.Script prefix_byte |}
      else if memb prefix_byte (pubkey_test C) then
        Ok {| payload := PubkeyHash hash; network := Network.Testnet;
              prefix := Prefix.Pubkey prefix_byte |}
      else if memb prefix_byte (script_test C) then
        Ok {| payload := ScriptHash hash; network := Network.Testnet;
              prefix := Prefix.Script prefix_byte |}
      else Err (Base58 (InvalidAddressVersion prefix_byte)).

(** [impl FromStr for Address]. *)
Definition from_str (s : string) : result Address Error :=
  match bech32_network (find_bech32_prefix s) with
  | Some network => from_str_bech32 network s
  | None => from_str_base58 s
  end.

End Codec.

(** [Address::to_qr_uri]: [format!("{}:{:#}", schema, self)], the schema
    upper case for witness addresses. *)
Section Qr.
Variable C : PrefixTable.
Variable b58_check_encode : list byte -> string.
Variable bech32_encode : string -> list u5 -> Variant -> string.
Variable to_base32 : list byte -> list u5.

Definition to_qr_uri (a : Address) : string :=
  let schema := match payload a with
                | WitnessProgram _ _ => "BITCOIN"
                | _ => "bitcoin"
                end in
  schema ++ ":" ++ Address_fmt C b58_check_encode bech32_encode to_base32 true a.

End Qr.

(** [impl Display for AddressType]. *)
Definition AddressType_to_string (t : AddressType) : string :=
  match t with
  | P2pkh => "p2pkh" | P2sh => "p2sh" | P2wpkh => "p2wpkh"
  | P2wsh => "p2wsh" | P2tr => "p2tr"
  end.

(** [impl FromStr for AddressType]. *)
Definition AddressType_from_str (s : string) : result AddressType Error :=
  if String.eqb s "p2pkh" then Ok P2pkh
  else if String.eqb s "p2sh" then Ok P2sh
  else if String.eqb s "p2wpkh" then Ok P2wpkh
  else if String.eqb s "p2wsh" then Ok P2wsh
  else if String.eqb s "p2tr" then Ok P2tr
  else Err (UnknownAddressType s).

(** [bech32::u5::try_from_u8]: a value above 31 is [InvalidData]. *)
Definition u5_try_from_u8 (value : byte) : result u5 bech32_Error :=
  if 31 <? Byte.to_nat value then Err (InvalidData value) else Ok value.

(** [impl From<WitnessVersion> for bech32::u5]:
    [u5::try_from_u8(version.to_num()).expect(..)]; [None] is the panic. *)
Definition u5_from_version (version : WitnessVersion) : option u5 :=
  match u5_try_from_u8 (to_num version) with
  | Ok u => Some u
  | Err _ => None
  end.

(** Slice equality [==] on byte slices. *)
Fixpoint bytes_eqb (l l' : list byte) : bool :=
  match l, l' with
  | [], [] => true
  | b :: l, b' :: l' => Byte.eqb b b' && bytes_eqb l l'
  | _, _ => false
  end.

Section Related.

Variable hash160 : list byte -> list byte.
(** [XOnlyPublicKey::from(pubkey.inner).serialize()]. *)
Variable xonly_serialize : PublicKey -> list byte.

(** [segwit_redeem_hash]: a SHA-256 engine fed [[0, 20]] then the pubkey
    hash, finished by [hash160::Hash::from_engine] (RIPEMD-160 of the
    SHA-256): the hash160 of those bytes. *)
Definition segwit_redeem_hash (pubkey_hash : list byte) : list byte :=
  hash160 ([x00; x14] ++ pubkey_hash).

(** [Address::is_related_to_pubkey]; slices compare byte by byte. *)
Definition is_related_to_pubkey (a : Address) (pk : PublicKey) : bool :=
  let pkh := pubkey_hash hash160 pk in
  let bytes := as_bytes (payload a) in
  bytes_eqb pkh bytes
  || bytes_eqb (xonly_serialize pk) bytes
  || bytes_eqb (segwit_redeem_hash pkh) bytes.

End Related.

(** A string without the Bech32 separator ['1']. *)
Definition has_no_sep (s : string) : bool :=
  forallb (fun c => negb (Ascii.eqb c "1")) (list_ascii_of_string s).

(** The payload shapes [Payload::from_script] and parsing can return:
    20-byte hashes, and witness programs of 2 to 40 bytes, 20 or 32 bytes
    for version 0. *)
Definition payload_wf (p : Payload) : Prop :=
  match p with
  | PubkeyHash h | ScriptHash h => List.length h = 20
  | WitnessProgram v prog =>
      2 <= List.length prog <= 40
      /\ (v = V0 -> List.length prog = 20 \/ List.length prog = 32)
  end.


(** The same program under version 0, checksummed with Bech32: it decodes
    to [("bc", [0; 14; 20], Bech32)]. *)
Definition v0_bech32_one_byte : string := "bc1qw56k6g7k".

(** The Bech32 vector [BC1QW508D6QEJXTDG4Y5R3ZARVARY0C5XW7KV8F3T4] of
    BIP-173 with its prefix written [Bc]. *)
Definition mixed_case_input : string := "Bc1qw508d6qejxtdg4y5r3zarvary0c5xw7kv8f3t4".

(** A human-readable part the Bech32 codec accepts (BIP-173): 1 to 83
    characters in the range 33..126, none upper case (the encoder writes
    lower case). *)
Definition valid_hrp (hrp : string) : bool :=
  (1 <=? String.length hrp) && (String.length hrp <=? 83)
  && forallb (fun c => let n := nat_of_ascii c in
                       (33 <=? n) && (n <=? 126) && negb ((65 <=? n) && (n <=? 90)))
       (list_ascii_of_string hrp).

(** The (network, coin) pairs whose witness prefix [Prefix::from_payload]
    gives is one the first [match] of [Address::from_str] maps back to the
    same network. *)
Definition segwit_supported (n : Network.t) (chain : Blockchain.t) : bool :=
  match n, chain with
  | Network.Bitcoin, Blockchain.Bitcoin | Network.Testnet, Blockchain.Bitcoin
  | Network.Regtest, Blockchain.Bitcoin | Network.Bitcoin, Blockchain.Litecoin
  | Network.Testnet, Blockchain.Litecoin => true
  | _, _ => false
  end.

(** ** A concrete instance of the external parameters

    Simple stand-ins for the codecs, hashes and version bytes, meeting the
    contracts assumed below; the witnesses evaluate the theorems on them. *)
Module Inst.

(** Version bytes of the four coins (main/test, pubkey/script). *)
Definition table : PrefixTable := {|
  BITCOIN_PUBKEY_ADDRESS_PREFIX_MAIN := x00; BITCOIN_PUBKEY_ADDRESS_PREFIX_TEST := x6f;
  BITCOIN_SCRIPT_ADDRESS_PREFIX_MAIN := x05; BITCOIN_SCRIPT_ADDRESS_PREFIX_TEST := xc4;
  DOGECOIN_PUBKEY_ADDRESS_PREFIX_MAIN := x1e; DOGECOIN_PUBKEY_ADDRESS_PREFIX_TEST := x71;
  DOGECOIN_SCRIPT_ADDRESS_PREFIX_MAIN := x16; DOGECOIN_SCRIPT_ADDRESS_PREFIX_TEST := xc4;
  LITECOIN_PUBKEY_ADDRESS_PREFIX_MAIN := x30; LITECOIN_PUBKEY_ADDRESS_PREFIX_TEST := x6f;
  LITECOIN_SCRIPT_ADDRESS_PREFIX_MAIN := x32; LITECOIN_SCRIPT_ADDRESS_PREFIX_TEST := x3a;
  STRATIS_PUBKEY_ADDRESS_PREFIX_MAIN := x4b; STRATIS_PUBKEY_ADDRESS_PREFIX_TEST := x78;
  STRATIS_SCRIPT_ADDRESS_PREFIX_MAIN := x8c; STRATIS_SCRIPT_ADDRESS_PREFIX_TEST := x7f |}.

(** Base58Check stand-in: a marker character, then the bytes. *)
Definition b58_check_encode (d : list byte) : string :=
  String "Z" (string_of_list_byte d).

Definition b58_from_check (s : string) : result (list byte) base58_Error :=
  match s with
  | String c rest => if Ascii.eqb c "Z" then Ok (list_byte_of_string rest) else Err BadChecksum
  | EmptyString => Err (TooShort 0)
  end.

(** Bech32 stand-in: [hrp], ['1'], a variant letter, then two letters
    [A..P] per symbol (high and low nibble); no ['1'] after the separator. *)
Definition nibble (n : nat) : ascii := ascii_of_nat (65 + n).

Definition enc_sym (b : u5) : string :=
  String (nibble (Byte.to_nat b / 16)) (String (nibble (Byte.to_nat b mod 16)) EmptyString).

Fixpoint enc_data (d : list u5) : string :=
  match d with
  | [] => EmptyString
  | b :: rest => enc_sym b ++ enc_data rest
  end.

Fixpoint dec_data (s : string) : option (list u5) :=
  match s with
  | EmptyString => Some []
  | String a (String c rest) =>
      match Byte.of_nat (16 * (nat_of_ascii a - 65) + (nat_of_ascii c - 65)), dec_data rest with
      | Some b, Some d => Some (b :: d)
      | _, _ => None
      end
  | String _ EmptyString => None
  end.

Definition variant_char (v : Variant) : ascii :=
  match v with Bech32 => "A" | Bech32m => "B" end.

Definition bech32_encode (hrp : string) (d : list u5) (v : Variant) : string :=
  hrp ++ String "1" (String (variant_char v) (enc_data d)).

Definition bech32_decode (s : string) : result (string * list u5 * Variant) bech32_Error :=
  match rsplit_1 s with
  | None => Err MissingSeparator
  | Some (_, EmptyString) => Err B32InvalidLength
  | Some (hrp, String vc body) =>
      match dec_data body with
      | None => Err InvalidChecksum
      | Some d =>
          if Ascii.eqb vc "A" then Ok (hrp, d, Bech32)
          else if Ascii.eqb vc "B" then Ok (hrp, d, Bech32m)
          else Err InvalidChecksum
      end
  end.

Definition to_base32 (d : list byte) : list u5 := d.
Definition from_base32 (d : list u5) : result (list byte) bech32_Error := Ok d.

(** Hash and tweak stand-ins with the right output lengths. *)
Definition hash160 (_ : list byte) : list byte := repeat x00 20.
Definition sha256 (_ : list byte) : list byte := repeat x00 32.
Definition tap_tweak (_ : list byte) (_ : option (list byte)) : list byte := repeat x00 32.

Definition key : PublicKey := {| pk_serialize := repeat x02 33; pk_compressed := true |}.


End Inst.

(** ** Proofs *)

Ltac split_ifs :=
  repeat match goal with
  | H : context [if ?c then _ else _] |- _ => let E := fresh "E" in destruct c eqn:E
  | |- context [if ?c then _ else _] => let E := fresh "E" in destruct c eqn:E
  end.

Ltac inv H := inversion H; subst; clear H.

(** *** Witness versions *)

(** Claim C9: for every 8-bit integer [n], [WitnessVersion::try_from(n)]
    succeeds exactly when [n <= 16]; above 16 it fails with
    [InvalidWitnessVersion(n)]; a successful result converts back to [n]
    with [to_num]. *)
Theorem try_from_u8_range : forall n : byte,
  (is_ok (try_from_u8 n) = true <-> Byte.to_nat n <= 16)
  /\ (16 < Byte.to_nat n -> try_from_u8 n = Err (InvalidWitnessVersion n))
  /\ (forall v, try_from_u8 n = Ok v -> to_num v = n).
Proof.
  intros n; destruct n; cbn;
    (split; [split; intros H; solve [reflexivity | lia | discriminate]
            | split; [intros H; solve [reflexivity | lia]
                     | intros v H; solve [discriminate | inv H; reflexivity]]]).
Qed.

(** *** Network compatibility *)

(** Claim C4: [is_valid_for_network(n)] is true when [n] is the stored
    network; false when exactly one of the two is mainnet; for P2pkh/P2sh
    addresses true for any two of Testnet, Regtest, Signet; for the other
    addresses false when exactly one of the two is Regtest, while Testnet
    and Signet accept each other. *)
Theorem is_valid_for_network_classes : forall (a : Address) (n : Network.t),
  (network a = n -> is_valid_for_network a n = true)
  /\ ((network a = Network.Bitcoin /\ n <> Network.Bitcoin)
      \/ (network a <> Network.Bitcoin /\ n = Network.Bitcoin) ->
      is_valid_for_network a n = false)
  /\ (address_type a = Some P2pkh \/ address_type a = Some P2sh ->
      In (network a) [Network.Testnet; Network.Regtest; Network.Signet] ->
      In n [Network.Testnet; Network.Regtest; Network.Signet] ->
      is_valid_for_network a n = true)
  /\ (address_type a <> Some P2pkh -> address_type a <> Some P2sh ->
      ((network a = Network.Regtest /\ n <> Network.Regtest)
       \/ (network a <> Network.Regtest /\ n = Network.Regtest)) ->
      is_valid_for_network a n = false)
  /\ (address_type a <> Some P2pkh -> address_type a <> Some P2sh ->
      In (network a) [Network.Testnet; Network.Signet] ->
      In n [Network.Testnet; Network.Signet] ->
      is_valid_for_network a n = true).
Proof.
  intros a n; unfold is_valid_for_network.
  destruct (address_type a) as [[]|]; destruct (network a), n; cbn;
    repeat split; intros; simpl in *; intuition congruence.
Qed.

(** *** Parsing: the networks it can return *)

Lemma bech32_network_cases : forall p n,
  bech32_network p = Some n ->
  (n = Network.Bitcoin /\ In p ["bc"; "BC"; "ltc"; "LTC"; "X"])
  \/ (n = Network.Testnet /\ In p ["tb"; "TB"; "tltc"; "TLTC"; "q"])
  \/ (n = Network.Regtest /\ In p ["bcrt"; "BCRT"]).
Proof.
  intros p n H; unfold bech32_network, str_in in H.
  destruct (existsb (String.eqb p) ["bc"; "BC"; "ltc"; "LTC"; "X"]) eqn:E1;
    [inv H; left; split; [reflexivity|]
    | destruct (existsb (String.eqb p) ["tb"; "TB"; "tltc"; "TLTC"; "q"]) eqn:E2;
      [inv H; right; left; split; [reflexivity|]
      | destruct (existsb (String.eqb p) ["bcrt"; "BCRT"]) eqn:E3;
        [inv H; right; right; split; [reflexivity|] | discriminate]]];
    match goal with E : existsb _ _ = true |- _ =>
      apply existsb_exists in E; destruct E as [x [Hx Hq]];
      apply String.eqb_eq in Hq; subst; exact Hx end.
Qed.

Lemma from_str_bech32_network : forall b32d fb n s a,
  from_str_bech32 b32d fb n s = Ok a -> network a = n.
Proof.
  intros b32d fb n s a H; unfold from_str_bech32 in H.
  destruct (b32d s) as [[[hrp pl] var]|]; [|discriminate].
  destruct pl as [|v p5]; [discriminate|].
  destruct (try_from_u5 v); [|discriminate]; cbn in H.
  destruct (fb p5); [|discriminate]; cbn in H.
  split_ifs; try discriminate; inv H; reflexivity.
Qed.

Lemma from_str_base58_network : forall C b58d s a,
  from_str_base58 C b58d s = Ok a ->
  network a = Network.Bitcoin \/ network a = Network.Testnet.
Proof.
  intros C b58d s a H; unfold from_str_base58 in H.
  split_ifs; try discriminate.
  destruct (b58d s); [|discriminate]; cbn in H.
  split_ifs; try discriminate; inv H; cbn; auto.
Qed.

Lemma from_str_network : forall C b58d b32d fb s a,
  from_str C b58d b32d fb s = Ok a ->
  In (network a) [Network.Bitcoin; Network.Testnet; Network.Regtest].
Proof.
  intros C b58d b32d fb s a H; unfold from_str in H.
  destruct (bech32_network (find_bech32_prefix s)) as [n|] eqn:E.
  - apply from_str_bech32_network in H; subst.
    apply bech32_network_cases in E; simpl; intuition.
  - apply from_str_base58_network in H; simpl; intuition.
Qed.

(** Claim C10: whenever parsing succeeds, the network of the result is
    Bitcoin, Testnet or Regtest, never Signet. *)
Theorem from_str_never_signet : forall C b58d b32d fb s a,
  from_str C b58d b32d fb s = Ok a ->
  In (network a) [Network.Bitcoin; Network.Testnet; Network.Regtest]
  /\ network a <> Network.Signet.
Proof.
  intros C b58d b32d fb s a H; pose proof (from_str_network _ _ _ _ _ _ H) as Hn.
  split; [exact Hn|]; simpl in Hn; intuition congruence.
Qed.

Lemma from_str_never_signet_witness :
  from_str Inst.table Inst.b58_from_check Inst.bech32_decode Inst.from_base32
    (Inst.b58_check_encode (x00 :: repeat x00 20))
  = Ok {| payload := PubkeyHash (repeat x00 20); network := Network.Bitcoin;
          prefix := Prefix.Pubkey x00 |}
  /\ Network.Bitcoin <> Network.Signet.
Proof.
  split; [reflexivity|].
  exact (proj2 (from_str_never_signet Inst.table Inst.b58_from_check Inst.bech32_decode
    Inst.from_base32 (Inst.b58_check_encode (x00 :: repeat x00 20))
    {| payload := PubkeyHash (repeat x00 20); network := Network.Bitcoin;
       prefix := Prefix.Pubkey x00 |} eq_refl)).
Defined.

(** *** The version-byte table *)

Lemma memb_In : forall b l, memb b l = true <-> In b l.
Proof.
  intros b l; unfold memb; rewrite existsb_exists; split.
  - intros [x [Hx Heq]]; apply Byte.byte_dec_bl in Heq; subst; exact Hx.
  - intros H; exists b; split; [exact H | apply Byte.byte_dec_lb; reflexivity].
Qed.

Lemma disjoint_spec : forall l1 l2 b,
  disjoint l1 l2 = true -> In b l1 -> In b l2 -> False.
Proof.
  intros l1 l2 b H H1 H2; unfold disjoint in H; rewrite forallb_forall in H.
  specialize (H b H1); apply memb_In in H2; rewrite H2 in H; discriminate.
Qed.

Lemma table_functional_spec : forall C, table_functional C = true ->
  disjoint (pubkey_main C) (script_main C) = true
  /\ disjoint (pubkey_main C) (pubkey_test C) = true
  /\ disjoint (pubkey_main C) (script_test C) = true
  /\ disjoint (script_main C) (pubkey_test C) = true
  /\ disjoint (script_main C) (script_test C) = true
  /\ disjoint (pubkey_test C) (script_test C) = true.
Proof.
  intros C H; unfold table_functional in H; repeat rewrite andb_true_iff in H; tauto.
Qed.

(** [memb b l] is false when [b] lies in a list disjoint from [l]. *)
Ltac memb_false :=
  match goal with
  | |- memb ?b ?l = false =>
      let E := fresh "E" in
      destruct (memb b l) eqn:E; [exfalso; apply memb_In in E|reflexivity];
      match goal with
      | D : disjoint ?l1 ?l2 = true, H1 : In b ?l1, H2 : In b ?l2 |- False =>
          exact (disjoint_spec _ _ _ D H1 H2)
      end
  end.

Lemma from_str_base58_unfold : forall C b58d b32d fb s,
  bech32_network (find_bech32_prefix s) = None ->
  from_str C b58d b32d fb s = from_str_base58 C b58d s.
Proof. intros C b58d b32d fb s H; unfold from_str; rewrite H; reflexivity. Qed.

(** Claim C7: in the Base58 branch, an input longer than 50 is rejected
    with [InvalidLength] whatever the Base58Check decoder does; a decoded
    buffer of length other than 21 is rejected with [InvalidLength]; a
    21-byte buffer whose first byte is in no arm of the version table is
    rejected with [InvalidAddressVersion] of that byte.  (Lengths are Rust's
    [str::len], in bytes; a string of more than 50 characters has more than
    50 bytes.) *)
Theorem from_str_base58_errors : forall C b58d b32d fb s,
  bech32_network (find_bech32_prefix s) = None ->
  (50 < String.length s ->
   from_str C b58d b32d fb s = Err (Base58 (InvalidLength (String.length s * 11 / 15))))
  /\ (forall data, String.length s <= 50 -> b58d s = Ok data -> List.length data <> 21 ->
      from_str C b58d b32d fb s = Err (Base58 (InvalidLength (List.length data))))
  /\ (forall b h, String.length s <= 50 -> b58d s = Ok (b :: h) -> List.length h = 20 ->
      ~ In b (pubkey_main C ++ script_main C ++ pubkey_test C ++ script_test C) ->
      from_str C b58d b32d fb s = Err (Base58 (InvalidAddressVersion b))).
Proof.
  intros C b58d b32d fb s Hn; rewrite (from_str_base58_unfold _ _ _ _ _ Hn).
  unfold from_str_base58; repeat split.
  - intros Hl; apply Nat.ltb_lt in Hl; rewrite Hl; reflexivity.
  - intros data Hl Hd H21; apply Nat.ltb_ge in Hl; rewrite Hl, Hd; cbn.
    apply Nat.eqb_neq in H21; rewrite H21; reflexivity.
  - intros b h Hl Hd H20 Hb; apply Nat.ltb_ge in Hl; rewrite Hl, Hd;
    cbn -[memb pubkey_main script_main pubkey_test script_test].
    rewrite H20; cbn -[memb pubkey_main script_main pubkey_test script_test].
    repeat rewrite in_app_iff in Hb.
    assert (F : forall l, ~ In b l -> memb b l = false)
      by (intros l Hl'; apply Bool.not_true_iff_false; rewrite memb_In; exact Hl').
    rewrite !F by tauto; reflexivity.
Qed.

Lemma from_str_base58_errors_witness :
  bech32_network (find_bech32_prefix (Inst.b58_check_encode (x99 :: repeat x00 20))) = None
  /\ from_str Inst.table Inst.b58_from_check Inst.bech32_decode Inst.from_base32
       (Inst.b58_check_encode (x99 :: repeat x00 20)) = Err (Base58 (InvalidAddressVersion x99)).
Proof.
  split; [reflexivity|].
  apply (proj2 (proj2 (from_str_base58_errors Inst.table Inst.b58_from_check
    Inst.bech32_decode Inst.from_base32 (Inst.b58_check_encode (x99 :: repeat x00 20))
    eq_refl)) x99 (repeat x00 20)); [cbn; lia | reflexivity | reflexivity |].
  cbn; intuition discriminate.
Defined.

(** Claim C8: when the version table gives each byte one arm, every Base58
    input whose decoded version byte is a testnet byte of some coin parses
    to an address on [Network::Testnet]; and a legacy address renders to the
    same text on Testnet, Regtest and Signet, so parsing cannot tell those
    three apart. *)
Theorem from_str_base58_testnet : forall C b58d b32d fb s b h,
  table_functional C = true ->
  bech32_network (find_bech32_prefix s) = None ->
  String.length s <= 50 ->
  b58d s = Ok (b :: h) ->
  List.length h = 20 ->
  In b (pubkey_test C ++ script_test C) ->
  (exists a, from_str C b58d b32d fb s = Ok a /\ network a = Network.Testnet)
  /\ (forall b58e b32e tb p n chain,
        (exists hash, p = PubkeyHash hash \/ p = ScriptHash hash) ->
        In n [Network.Testnet; Network.Regtest; Network.Signet] ->
        to_string C b58e b32e tb (mk_address C p n chain)
        = to_string C b58e b32e tb (mk_address C p Network.Testnet chain)).
Proof.
  intros C b58d b32d fb s b h Hf Hn Hl Hd H20 Hb.
  destruct (table_functional_spec C Hf) as (D1 & D2 & D3 & D4 & D5 & D6).
  split.
  - rewrite (from_str_base58_unfold _ _ _ _ _ Hn); unfold from_str_base58.
    apply Nat.ltb_ge in Hl; rewrite Hl, Hd;
      cbn -[memb pubkey_main script_main pubkey_test script_test].
    rewrite H20; cbn -[memb pubkey_main script_main pubkey_test script_test].
    apply in_app_iff in Hb; destruct Hb as [Hb|Hb].
    + assert (memb b (pubkey_main C) = false) as -> by memb_false.
      assert (memb b (script_main C) = false) as -> by memb_false.
      assert (memb b (pubkey_test C) = true) as -> by (apply memb_In; exact Hb).
      eexists; split; reflexivity.
    + assert (memb b (pubkey_main C) = false) as -> by memb_false.
      assert (memb b (script_main C) = false) as -> by memb_false.
      assert (memb b (pubkey_test C) = false) as -> by memb_false.
      assert (memb b (script_test C) = true) as -> by (apply memb_In; exact Hb).
      eexists; split; reflexivity.
  - intros b58e b32e tb p n chain [hash [-> | ->]] Hn';
      simpl in Hn'; destruct Hn' as [<-|[<-|[<-|[]]]]; destruct chain; reflexivity.
Qed.

Lemma from_str_base58_testnet_witness :
  exists a, from_str Inst.table Inst.b58_from_check Inst.bech32_decode Inst.from_base32
              (Inst.b58_check_encode (x3a :: repeat x00 20)) = Ok a
            /\ network a = Network.Testnet.
Proof.
  apply (proj1 (from_str_base58_testnet Inst.table Inst.b58_from_check Inst.bech32_decode
    Inst.from_base32 (Inst.b58_check_encode (x3a :: repeat x00 20)) x3a (repeat x00 20)
    eq_refl eq_refl ltac:(cbn; lia) eq_refl eq_refl ltac:(cbn; tauto))).
Defined.

(** *** Which branch parsing takes *)

Lemma bech32_network_some_case : forall p n,
  bech32_network p = Some n -> p = string_lower p \/ p = string_upper p.
Proof.
  intros p n H; apply bech32_network_cases in H.
  destruct H as [[_ H]|[[_ H]|[_ H]]]; simpl in H; intuition (subst; auto).
Qed.

(** Claim C3, as the code has it: parsing takes the Bech32 branch exactly
    when the text before the last '1' is, letter for letter, one of bc, BC,
    ltc, LTC, X, tb, TB, tltc, TLTC, q, bcrt, BCRT; any other prefix, a
    mixed-case spelling in particular, goes to the Base58 branch. *)
Theorem from_str_branch : forall C b58d b32d fb s,
  (In (find_bech32_prefix s)
      ["bc"; "BC"; "ltc"; "LTC"; "X"; "tb"; "TB"; "tltc"; "TLTC"; "q"; "bcrt"; "BCRT"] ->
   exists n, from_str C b58d b32d fb s = from_str_bech32 b32d fb n s)
  /\ (~ In (find_bech32_prefix s)
        ["bc"; "BC"; "ltc"; "LTC"; "X"; "tb"; "TB"; "tltc"; "TLTC"; "q"; "bcrt"; "BCRT"] ->
      from_str C b58d b32d fb s = from_str_base58 C b58d s)
  /\ (find_bech32_prefix s <> string_lower (find_bech32_prefix s) ->
      find_bech32_prefix s <> string_upper (find_bech32_prefix s) ->
      from_str C b58d b32d fb s = from_str_base58 C b58d s).
Proof.
  intros C b58d b32d fb s; unfold from_str; split; [|split].
  - intros H; simpl in H; repeat destruct H as [H|H];
      try (rewrite <- H; eexists; reflexivity); destruct H.
  - intros H; destruct (bech32_network (find_bech32_prefix s)) eqn:E; [|reflexivity].
    apply bech32_network_cases in E; simpl in *; tauto.
  - intros H1 H2; destruct (bech32_network (find_bech32_prefix s)) eqn:E; [|reflexivity].
    apply bech32_network_some_case in E; tauto.
Qed.

(** Counterexample to claim C3: the prefix [Bc] matches the known prefix
    [bc] up to ASCII case, yet parsing sends the input to the Base58 branch
    (the comment in [from_str] says that mixed case is not a valid Bech32
    prefix). *)
Lemma from_str_mixed_case_prefix_base58 :
  string_lower (find_bech32_prefix mixed_case_input) = "bc"
  /\ bech32_network (find_bech32_prefix mixed_case_input) = None
  /\ (forall C b58d b32d fb,
        from_str C b58d b32d fb mixed_case_input = from_str_base58 C b58d mixed_case_input).
Proof.
  split; [reflexivity|]; split; [reflexivity|]; intros; reflexivity.
Qed.

(** *** The Bech32 branch: program lengths and checksum variants *)


Lemma from_str_bech32_unfold : forall C b58d b32d fb s n,
  bech32_network (find_bech32_prefix s) = Some n ->
  from_str C b58d b32d fb s = from_str_bech32 b32d fb n s.
Proof. intros C b58d b32d fb s n H; unfold from_str; rewrite H; reflexivity. Qed.




(** Claim C6, as the code has it: once the Bech32 branch has decoded the
    version and the program, a program shorter than 2 or longer than 40
    bytes is rejected with [InvalidWitnessProgramLength(len)], and a version-0
    program of 2 to 40 bytes other than 20 or 32 with
    [InvalidSegwitV0ProgramLength(len)]; no parsed address carries such a
    program. *)
Theorem from_str_program_length : forall C b58d b32d fb,
  (forall s a, from_str C b58d b32d fb s = Ok a -> payload_wf (payload a))
  /\ (forall s n hrp v p5 variant version program,
        bech32_network (find_bech32_prefix s) = Some n ->
        b32d s = Ok (hrp, v :: p5, variant) ->
        try_from_u5 v = Ok version ->
        fb p5 = Ok program ->
        ((List.length program < 2 \/ 40 < List.length program) ->
         from_str C b58d b32d fb s = Err (InvalidWitnessProgramLength (List.length program)))
        /\ (version = V0 -> 2 <= List.length program <= 40 ->
            List.length program <> 20 -> List.length program <> 32 ->
            from_str C b58d b32d fb s
            = Err (InvalidSegwitV0ProgramLength (List.length program)))).
Proof.
  intros C b58d b32d fb; split.
  - intros s a H; unfold from_str in H.
    destruct (bech32_network (find_bech32_prefix s)) as [n|].
    + unfold from_str_bech32 in H.
      destruct (b32d s) as [[[hrp pl] var]|]; [|discriminate].
      destruct pl as [|v p5]; [discriminate|].
      destruct (try_from_u5 v) as [version|]; [|discriminate]; cbn [bind] in H.
      destruct (fb p5) as [program|]; [|discriminate]; cbn [bind map_err] in H.
      split_ifs; try discriminate; inv H; cbn.
      apply orb_false_iff in E; destruct E as [Lo Hi].
      apply Nat.ltb_ge in Lo, Hi; split; [lia|].
      intros ->; cbn in E0.
      destruct (Nat.eqb_spec (List.length program) 20); [auto|].
      destruct (Nat.eqb_spec (List.length program) 32); [auto|discriminate].
    + unfold from_str_base58 in H; split_ifs; try discriminate.
      destruct (b58d s) as [data|]; [|discriminate]; cbn [bind map_err] in H.
      split_ifs; try discriminate; inv H; cbn;
        apply Bool.negb_false_iff, Nat.eqb_eq in E0;
        destruct data; cbn in *; lia.
  - intros s n hrp v p5 variant version program Hn Hd Hv Hp.
    rewrite (from_str_bech32_unfold _ _ _ _ _ _ Hn); unfold from_str_bech32.
    rewrite Hd, Hv; cbn [bind]; rewrite Hp; cbn [bind map_err]; split.
    + intros Hl; assert (E : (List.length program <? 2) || (40 <? List.length program) = true)
        by (apply orb_true_iff; destruct Hl; [left|right]; apply Nat.ltb_lt; lia).
      rewrite E; reflexivity.
    + intros -> Hl H20 H32.
      assert (E : (List.length program <? 2) || (40 <? List.length program) = false)
        by (apply orb_false_iff; split; apply Nat.ltb_ge; lia).
      rewrite E; cbn [WitnessVersion_eqb andb].
      apply Nat.eqb_neq in H20, H32; rewrite H20, H32; reflexivity.
Qed.

Lemma from_str_program_length_witness :
  from_str Inst.table Inst.b58_from_check Inst.bech32_decode Inst.from_base32
    (Inst.bech32_encode "bc" (x00 :: repeat x00 25) Bech32)
  = Err (InvalidSegwitV0ProgramLength 25).
Proof.
  apply (proj2 (proj2 (from_str_program_length Inst.table Inst.b58_from_check
    Inst.bech32_decode Inst.from_base32) (Inst.bech32_encode "bc" (x00 :: repeat x00 25) Bech32)
    Network.Bitcoin "bc" x00 (repeat x00 25) Bech32 V0 (repeat x00 25)
    eq_refl eq_refl eq_refl eq_refl)); solve [reflexivity | cbn; lia].
Defined.

(** Counterexample to claim C6: a version-0 program of one byte is rejected
    with [InvalidWitnessProgramLength(1)], not with
    [InvalidSegwitV0ProgramLength(1)]: on the stand-in codec, and on any
    decoder that reads [v0_bech32_one_byte] as BIP-173 does. *)
Lemma from_str_v0_short_program_error :
  from_str Inst.table Inst.b58_from_check Inst.bech32_decode Inst.from_base32
    (Inst.bech32_encode "bc" [x00; x75] Bech32) = Err (InvalidWitnessProgramLength 1)
  /\ (forall C b58d b32d fb,
        b32d v0_bech32_one_byte = Ok ("bc", [x00; x0e; x14], Bech32) ->
        fb [x0e; x14] = Ok [x75] ->
        from_str C b58d b32d fb v0_bech32_one_byte = Err (InvalidWitnessProgramLength 1)
        /\ from_str C b58d b32d fb v0_bech32_one_byte
           <> Err (InvalidSegwitV0ProgramLength 1)).
Proof.
  split; [reflexivity|].
  intros C b58d b32d fb Hd Hf.
  assert (H : from_str C b58d b32d fb v0_bech32_one_byte = Err (InvalidWitnessProgramLength 1)).
  { unfold from_str; cbn -[from_str_bech32]; unfold from_str_bech32.
    rewrite Hd; cbn [try_from_u5 try_from_u8 bind]; rewrite Hf; reflexivity. }
  split; [exact H|]; rewrite H; discriminate.
Qed.

(** *** Scripts and payloads *)

Lemma is_p2pkh_head : forall s, is_p2pkh s = true -> byte_at s 0 = x76.
Proof.
  intros s H; unfold is_p2pkh in H; repeat rewrite andb_true_iff in H.
  destruct H as [[[[[_ H] _] _] _] _]; apply Byte.byte_dec_bl; exact H.
Qed.

Lemma is_p2sh_head : forall s, is_p2sh s = true -> byte_at s 0 = xa9.
Proof.
  intros s H; unfold is_p2sh in H; repeat rewrite andb_true_iff in H.
  destruct H as [[[_ H] _] _]; apply Byte.byte_dec_bl; exact H.
Qed.

Lemma opcode_of_version_shape : forall v,
  opcode_of_version v <> x76 /\ opcode_of_version v <> xa9
  /\ (Byte.to_nat (opcode_of_version v) = 0
      \/ 81 <= Byte.to_nat (opcode_of_version v) <= 96)
  /\ try_from_opcode (opcode_of_version v) = Ok v
  /\ (opcode_of_version v = x00 <-> v = V0).
Proof.
  intros []; cbn; repeat split; try discriminate; try lia; try reflexivity; auto.
Qed.

Lemma push_slice_short : forall prog, List.length prog <= 255 ->
  exists n, push_slice prog = n :: prog /\ Byte.to_nat n = List.length prog.
Proof.
  intros prog H; unfold push_slice.
  destruct (Byte.of_nat (List.length prog)) as [n|] eqn:E.
  - exists n; split; [reflexivity|]; apply Byte.to_of_nat; exact E.
  - apply Byte.of_nat_None_iff in E; lia.
Qed.

Lemma is_witness_program_push : forall op n prog,
  (Byte.to_nat op = 0 \/ 81 <= Byte.to_nat op <= 96) ->
  Byte.to_nat n = List.length prog -> 2 <= List.length prog <= 40 ->
  is_witness_program (op :: n :: prog) = true.
Proof.
  intros op n prog Hop Hn Hl; unfold is_witness_program, byte_at; cbn [nth List.length].
  rewrite Hn; repeat rewrite andb_true_iff; rewrite orb_true_iff, andb_true_iff.
  rewrite !Nat.leb_le, !Nat.eqb_eq; lia.
Qed.

(** [Payload::from_script] inverts [script_pubkey] on the payload shapes. *)
Lemma from_script_script_pubkey_wf : forall p,
  payload_wf p -> Payload_from_script (script_pubkey p) = Ok p.
Proof.
  intros [h|h|v prog] Hwf; cbn in Hwf.
  - do 20 (destruct h as [|? h]; [discriminate|]); destruct h; [reflexivity|discriminate].
  - do 20 (destruct h as [|? h]; [discriminate|]); destruct h; [reflexivity|discriminate].
  - destruct Hwf as [Hl H0].
    destruct (push_slice_short prog) as [n [Hp Hn]]; [lia|].
    destruct (opcode_of_version_shape v) as (N76 & Na9 & Hop & Hv & H00).
    unfold script_pubkey, new_witness_program; rewrite Hp; unfold Payload_from_script.
    destruct (is_p2pkh _) eqn:E1; [apply is_p2pkh_head in E1; contradiction|].
    destruct (is_p2sh _) eqn:E2; [apply is_p2sh_head in E2; contradiction|].
    rewrite (is_witness_program_push _ _ _ Hop Hn Hl).
    unfold witness_version, byte_at; cbn [nth skipn]; rewrite Hv.
    destruct (WitnessVersion_eqb v V0) eqn:E0.
    + destruct v; try discriminate E0.
      assert (Hn' : Byte.of_nat (List.length prog) = Some n)
        by (apply Byte.to_of_nat_iff; exact Hn).
      destruct (H0 eq_refl) as [E|E]; rewrite E in Hn'; cbn in Hn'; inv Hn';
        unfold is_v0_p2wpkh, is_v0_p2wsh, byte_at; cbn [nth List.length]; rewrite E;
        reflexivity.
    + destruct v; try discriminate E0; reflexivity.
Qed.

Lemma payload_constructed_wf : forall hash160 sha256 tap_tweak p,
  (forall x, List.length (hash160 x) = 20) ->
  (forall x, List.length (sha256 x) = 32) ->
  (forall k r, List.length (tap_tweak k r) = 32) ->
  payload_constructed hash160 sha256 tap_tweak p -> payload_wf p.
Proof.
  intros hash160 sha256 tap_tweak p H20 H32 Ht Hc; destruct Hc as
    [pk|s p H|pk p H|pk p H|s|s|ik mr|k Hk]; cbn.
  - apply H20.
  - unfold Payload_p2sh in H; split_ifs; inv H; cbn; apply H20.
  - unfold Payload_p2wpkh, wpubkey_hash in H; destruct (pk_compressed pk); inv H; cbn.
    rewrite H20; split; [lia | auto].
  - unfold Payload_p2shwpkh, wpubkey_hash in H; destruct (pk_compressed pk); inv H; cbn.
    apply H20.
  - cbn; rewrite H32; split; [lia | auto].
  - apply H20.
  - rewrite Ht; split; [lia | discriminate].
  - rewrite Hk; split; [lia | discriminate].
Qed.

(** Claim C2: with hash160 giving 20 bytes, SHA-256 32 bytes and the
    Taproot tweak a 32-byte x-only key, every payload a named constructor
    of [Payload] returns is read back by [Payload::from_script] from its
    [script_pubkey()]. *)
Theorem from_script_round_trip : forall hash160 sha256 tap_tweak p,
  (forall x, List.length (hash160 x) = 20) ->
  (forall x, List.length (sha256 x) = 32) ->
  (forall k r, List.length (tap_tweak k r) = 32) ->
  payload_constructed hash160 sha256 tap_tweak p ->
  Payload_from_script (script_pubkey p) = Ok p.
Proof.
  intros hash160 sha256 tap_tweak p H20 H32 Ht Hc.
  apply from_script_script_pubkey_wf, (payload_constructed_wf _ _ _ _ H20 H32 Ht Hc).
Qed.

Lemma Inst_hash_lengths :
  (forall x, List.length (Inst.hash160 x) = 20)
  /\ (forall x, List.length (Inst.sha256 x) = 32)
  /\ (forall k r, List.length (Inst.tap_tweak k r) = 32).
Proof. repeat split; intros; apply repeat_length. Qed.

Lemma from_script_round_trip_witness :
  Payload_from_script (script_pubkey (Payload_p2wsh Inst.sha256 [x51]))
  = Ok (Payload_p2wsh Inst.sha256 [x51]).
Proof.
  destruct Inst_hash_lengths as (H20 & H32 & Ht).
  exact (from_script_round_trip Inst.hash160 Inst.sha256 Inst.tap_tweak
    (Payload_p2wsh Inst.sha256 [x51]) H20 H32 Ht (pc_p2wsh _ _ _ [x51])).
Defined.

(** *** Rendering then parsing *)

Lemma rsplit_1_app : forall h t,
  rsplit_1 t = None -> rsplit_1 (h ++ String "1" t) = Some (h, t).
Proof.
  induction h as [|c h IH]; intros t H; cbn.
  - rewrite H; reflexivity.
  - rewrite (IH t H); reflexivity.
Qed.

Lemma try_from_u5_version : forall v, try_from_u5 (u5_of_version v) = Ok v.
Proof. intros []; reflexivity. Qed.

Lemma variant_eqb_refl : forall v, variant_eqb v v = true.
Proof. intros []; reflexivity. Qed.

Lemma from_script_wf : forall s p, Payload_from_script s = Ok p -> payload_wf p.
Proof.
  intros s p H; unfold Payload_from_script in H.
  destruct (is_p2pkh s) eqn:E1.
  { unfold is_p2pkh in E1; repeat rewrite andb_true_iff in E1.
    destruct E1 as [[[[[L _] _] _] _] _]; apply Nat.eqb_eq in L.
    assert (Hl : List.length (firstn 20 (skipn 3 s)) = 20)
      by (rewrite length_firstn, length_skipn; lia).
    inv H; exact Hl. }
  destruct (is_p2sh s) eqn:E2.
  { unfold is_p2sh in E2; repeat rewrite andb_true_iff in E2.
    destruct E2 as [[[L _] _] _]; apply Nat.eqb_eq in L.
    assert (Hl : List.length (firstn 20 (skipn 2 s)) = 20)
      by (rewrite length_firstn, length_skipn; lia).
    inv H; exact Hl. }
  destruct (is_witness_program s) eqn:E3; [|discriminate].
  unfold is_witness_program in E3; repeat rewrite andb_true_iff in E3.
  destruct E3 as [[[[[L1 L2] _] _] _] _]; apply Nat.leb_le in L1, L2.
  destruct (_ && _) eqn:E4; [discriminate|].
  destruct (try_from_opcode (byte_at s 0)) as [v|] eqn:Ev; cbn [bind] in H; [|discriminate].
  assert (Hl : 2 <= List.length (skipn 2 s) <= 40) by (rewrite length_skipn; lia).
  assert (H0 : v = V0 -> List.length (skipn 2 s) = 20 \/ List.length (skipn 2 s) = 32).
  { intros ->; rewrite length_skipn.
    destruct s as [|b0 s']; [cbn in L1; lia|].
    change (byte_at (b0 :: s') 0) with b0 in Ev.
    cbn [witness_version] in E4; rewrite Ev in E4; cbn -[is_v0_p2wpkh is_v0_p2wsh] in E4.
    apply negb_false_iff, orb_true_iff in E4.
    destruct E4 as [W|W]; [unfold is_v0_p2wpkh in W | unfold is_v0_p2wsh in W];
      repeat rewrite andb_true_iff in W; destruct W as [[W _] _]; apply Nat.eqb_eq in W;
      lia. }
  inv H; exact (conj Hl H0).
Qed.

Lemma constructed_shape : forall hash160 sha256 tap_tweak C chain a,
  (forall x, List.length (hash160 x) = 20) ->
  (forall x, List.length (sha256 x) = 32) ->
  (forall k r, List.length (tap_tweak k r) = 32) ->
  constructed hash160 sha256 tap_tweak C chain a ->
  exists p n, a = mk_address C p n chain /\ payload_wf p.
Proof.
  intros hash160 sha256 tap_tweak C chain a H20 H32 Ht Hc.
  pose proof (payload_constructed_wf hash160 sha256 tap_tweak) as W.
  destruct Hc as [pk n|s n a H|pk n a H|pk n a H|s n|s n|ik mr n|k n Hk|s n a H].
  - eexists _, n; split; [reflexivity|]; apply W; auto; constructor.
  - unfold Address_p2sh in H; destruct (Payload_p2sh hash160 s) as [p|] eqn:Ep;
      cbn in H; inv H; exists p, n; split; [reflexivity|]; apply W; auto; econstructor; exact Ep.
  - unfold Address_p2wpkh in H; destruct (Payload_p2wpkh hash160 pk) as [p|] eqn:Ep;
      cbn in H; inv H; exists p, n; split; [reflexivity|]; apply W; auto; econstructor; exact Ep.
  - unfold Address_p2shwpkh in H; destruct (Payload_p2shwpkh hash160 pk) as [p|] eqn:Ep;
      cbn in H; inv H; exists p, n; split; [reflexivity|]; apply W; auto; econstructor; exact Ep.
  - eexists _, n; split; [reflexivity|]; apply W; auto; constructor.
  - eexists _, n; split; [reflexivity|]; apply W; auto; constructor.
  - eexists _, n; split; [reflexivity|]; apply W; auto; constructor.
  - eexists _, n; split; [reflexivity|]; apply W; auto; constructor; exact Hk.
  - unfold Address_from_script in H; destruct (Payload_from_script s) as [p|] eqn:Ep;
      cbn in H; inv H; exists p, n; split; [reflexivity|]; apply (from_script_wf s); exact Ep.
Qed.

Lemma from_str_base58_legacy : forall C b58d s b h,
  table_functional C = true -> String.length s <= 50 -> b58d s = Ok (b :: h) ->
  List.length h = 20 ->
  (In b (pubkey_main C) -> from_str_base58 C b58d s
     = Ok {| payload := PubkeyHash h; network := Network.Bitcoin; prefix := Prefix.Pubkey b |})
  /\ (In b (script_main C) -> from_str_base58 C b58d s
     = Ok {| payload := ScriptHash h; network := Network.Bitcoin; prefix := Prefix.Script b |})
  /\ (In b (pubkey_test C) -> from_str_base58 C b58d s
     = Ok {| payload := PubkeyHash h; network := Network.Testnet; prefix := Prefix.Pubkey b |})
  /\ (In b (script_test C) -> from_str_base58 C b58d s
     = Ok {| payload := ScriptHash h; network := Network.Testnet; prefix := Prefix.Script b |}).
Proof.
  intros C b58d s b h Hf Hl Hd H20.
  destruct (table_functional_spec C Hf) as (D1 & D2 & D3 & D4 & D5 & D6).
  unfold from_str_base58; apply Nat.ltb_ge in Hl; rewrite Hl, Hd;
    cbn -[memb pubkey_main script_main pubkey_test script_test].
  rewrite H20; cbn -[memb pubkey_main script_main pubkey_test script_test].
  repeat split; intros Hb;
    repeat match goal with
    | |- context [memb b ?l] =>
        first [ assert (memb b l = true) as -> by (apply memb_In; exact Hb)
              | assert (memb b l = false) as -> by memb_false ]
    end; reflexivity.
Qed.

Section Segwit.

Variables (C : PrefixTable) (b58d : string -> result (list byte) base58_Error)
  (b32e : string -> list u5 -> Variant -> string)
  (b32d : string -> result (string * list u5 * Variant) bech32_Error)
  (tb : list byte -> list u5) (fb : list u5 -> result (list byte) bech32_Error).

Hypothesis D1 : forall hrp d v, valid_hrp hrp = true ->
  String.length hrp + List.length d <= 83 -> b32d (b32e hrp d v) = Ok (hrp, d, v).
Hypothesis D2 : forall hrp d v,
  exists tail, b32e hrp d v = (hrp ++ String "1" tail)%string /\ rsplit_1 tail = None.
Hypothesis D3 : forall prog, fb (tb prog) = Ok prog.
Hypothesis D4 : forall prog, List.length prog <= 40 -> List.length (tb prog) <= 64.

Lemma from_str_segwit : forall hrp n v prog,
  valid_hrp hrp = true -> String.length hrp <= 4 -> bech32_network hrp = Some n ->
  payload_wf (WitnessProgram v prog) ->
  from_str C b58d b32d fb (b32e hrp (u5_of_version v :: tb prog) (bech32_variant v))
  = Ok {| payload := WitnessProgram v prog; network := n; prefix := Prefix.Segwit hrp |}.
Proof.
  intros hrp n v prog Hv Hh Hn [Hl H0].
  assert (F : find_bech32_prefix (b32e hrp (u5_of_version v :: tb prog) (bech32_variant v)) = hrp).
  { destruct (D2 hrp (u5_of_version v :: tb prog) (bech32_variant v)) as [tail [Ht Hr]].
    rewrite Ht; unfold find_bech32_prefix; rewrite (rsplit_1_app _ _ Hr); reflexivity. }
  unfold from_str; rewrite F, Hn; unfold from_str_bech32.
  rewrite D1 by (auto; cbn [List.length]; pose proof (D4 prog); lia).
  cbv beta iota zeta; rewrite try_from_u5_version; cbn [bind]; rewrite D3; cbn [map_err bind].
  assert (E : (List.length prog <? 2) || (40 <? List.length prog) = false)
    by (apply orb_false_iff; split; apply Nat.ltb_ge; lia).
  rewrite E.
  assert (E' : WitnessVersion_eqb v V0
               && (negb (List.length prog =? 20) && negb (List.length prog =? 32)) = false).
  { destruct v; cbn; try reflexivity.
    destruct (H0 eq_refl) as [-> | ->]; reflexivity. }
  rewrite E', variant_eqb_refl; reflexivity.
Qed.

End Segwit.

Lemma from_str_bech32_payload : forall b32d fb n s a,
  from_str_bech32 b32d fb n s = Ok a -> exists v prog, payload a = WitnessProgram v prog.
Proof.
  intros b32d fb n s a H; unfold from_str_bech32 in H.
  destruct (b32d s) as [[[hrp pl] var]|]; [|discriminate].
  destruct pl as [|v p5]; [discriminate|].
  destruct (try_from_u5 v); [|discriminate]; cbn in H.
  destruct (fb p5); [|discriminate]; cbn in H.
  split_ifs; try discriminate; inv H; do 2 eexists; reflexivity.
Qed.

(** The round trip as the code has it: with hash160, SHA-256 and the tweak
    of the right output sizes, a version-byte table giving each byte one arm,
    Base58Check and Bech32 codecs that decode what they encode (the Bech32
    text being the hrp, the separator ['1'] and a tail without ['1']), every
    address a named constructor returns renders to text that parses back to
    it, when its (network, coin) is one parsing can return: for a witness
    payload Bitcoin, Testnet or Regtest on Bitcoin, or Bitcoin or Testnet on
    Litecoin; for a Base58 payload the network Bitcoin or Testnet, and a
    rendering whose text before its last ['1'] is no Bech32 prefix. *)
Theorem address_round_trip :
  forall C hash160 sha256 tap_tweak b58e b58d b32e b32d tb fb chain a,
  (forall x, List.length (hash160 x) = 20) ->
  (forall x, List.length (sha256 x) = 32) ->
  (forall k r, List.length (tap_tweak k r) = 32) ->
  table_functional C = true ->
  (forall d, b58d (b58e d) = Ok d) ->
  (forall d, List.length d = 21 -> String.length (b58e d) <= 50) ->
  (forall hrp d v, valid_hrp hrp = true ->
     String.length hrp + List.length d <= 83 -> b32d (b32e hrp d v) = Ok (hrp, d, v)) ->
  (forall hrp d v,
     exists tail, b32e hrp d v = (hrp ++ String "1" tail)%string /\ rsplit_1 tail = None) ->
  (forall prog, fb (tb prog) = Ok prog) ->
  (forall prog, List.length prog <= 40 -> List.length (tb prog) <= 64) ->
  constructed hash160 sha256 tap_tweak C chain a ->
  match payload a with
  | WitnessProgram _ _ => segwit_supported (network a) chain = true
  | PubkeyHash _ | ScriptHash _ =>
      (network a = Network.Bitcoin \/ network a = Network.Testnet)
      /\ bech32_network (find_bech32_prefix (to_string C b58e b32e tb a)) = None
  end ->
  from_str C b58d b32d fb (to_string C b58e b32e tb a) = Ok a.
Proof.
  intros C hash160 sha256 tap_tweak b58e b58d b32e b32d tb fb chain a
    H20 H32 Ht Hf B1 B2 D1 D2 D3 D4 Hc Hs.
  destruct (constructed_shape _ _ _ _ _ _ H20 H32 Ht Hc) as (p & n & -> & Hwf).
  destruct p as [h|h|v prog]; cbn [payload network mk_address] in Hs.
  - destruct Hs as [[-> | ->] Hn]; rewrite (from_str_base58_unfold _ _ _ _ _ Hn);
      destruct chain; cbn -[from_str_base58];
      (match goal with |- from_str_base58 _ _ (b58e (?b :: h)) = _ =>
         destruct (from_str_base58_legacy C b58d _ b h Hf
                     (B2 (b :: h) ltac:(cbn; cbn in Hwf; lia)) (B1 _) Hwf)
           as (L1 & L2 & L3 & L4) end;
       first [apply L1 | apply L2 | apply L3 | apply L4]; cbn; auto 10).
  - destruct Hs as [[-> | ->] Hn]; rewrite (from_str_base58_unfold _ _ _ _ _ Hn);
      destruct chain; cbn -[from_str_base58];
      (match goal with |- from_str_base58 _ _ (b58e (?b :: h)) = _ =>
         destruct (from_str_base58_legacy C b58d _ b h Hf
                     (B2 (b :: h) ltac:(cbn; cbn in Hwf; lia)) (B1 _) Hwf)
           as (L1 & L2 & L3 & L4) end;
       first [apply L1 | apply L2 | apply L3 | apply L4]; cbn; auto 10).
  - destruct n, chain; try discriminate Hs.
    + exact (from_str_segwit C b58d b32e b32d tb fb D1 D2 D3 D4 "bc" Network.Bitcoin
               v prog eq_refl ltac:(cbn; lia) eq_refl Hwf).
    + exact (from_str_segwit C b58d b32e b32d tb fb D1 D2 D3 D4 "ltc" Network.Bitcoin
               v prog eq_refl ltac:(cbn; lia) eq_refl Hwf).
    + exact (from_str_segwit C b58d b32e b32d tb fb D1 D2 D3 D4 "tb" Network.Testnet
               v prog eq_refl ltac:(cbn; lia) eq_refl Hwf).
    + exact (from_str_segwit C b58d b32e b32d tb fb D1 D2 D3 D4 "tltc" Network.Testnet
               v prog eq_refl ltac:(cbn; lia) eq_refl Hwf).
    + exact (from_str_segwit C b58d b32e b32d tb fb D1 D2 D3 D4 "bcrt" Network.Regtest
               v prog eq_refl ltac:(cbn; lia) eq_refl Hwf).
Qed.

(** *** The stand-in codecs meet the contracts *)

Lemma Inst_b58_round : forall d, Inst.b58_from_check (Inst.b58_check_encode d) = Ok d.
Proof.
  intros d; unfold Inst.b58_from_check, Inst.b58_check_encode.
  rewrite list_byte_of_string_of_list_byte; reflexivity.
Qed.

Lemma length_string_of_list_byte : forall d,
  String.length (string_of_list_byte d) = List.length d.
Proof.
  unfold string_of_list_byte; induction d as [|b d IH]; [reflexivity|].
  cbn [List.map string_of_list_ascii String.length List.length]; rewrite IH; reflexivity.
Qed.

Lemma Inst_b58_length : forall d, List.length d = 21 ->
  String.length (Inst.b58_check_encode d) <= 50.
Proof.
  intros d H; unfold Inst.b58_check_encode.
  change (String.length (String "Z" (string_of_list_byte d)))
    with (S (String.length (string_of_list_byte d))).
  rewrite length_string_of_list_byte; lia.
Qed.

Lemma Inst_nibble_not_1 : forall k, k < 16 -> Ascii.eqb (Inst.nibble k) "1" = false.
Proof. intros k H; do 16 (destruct k as [|k]; [reflexivity|]); lia. Qed.

Lemma Inst_enc_data_cons : forall b d,
  Inst.enc_data (b :: d)
  = String (Inst.nibble (Byte.to_nat b / 16))
      (String (Inst.nibble (Byte.to_nat b mod 16)) (Inst.enc_data d)).
Proof. reflexivity. Qed.

Lemma Inst_enc_data_no_1 : forall d, rsplit_1 (Inst.enc_data d) = None.
Proof.
  induction d as [|b d IH]; [reflexivity|].
  rewrite Inst_enc_data_cons; cbn [rsplit_1]; rewrite IH.
  pose proof (Byte.to_nat_bounded b).
  rewrite !Inst_nibble_not_1; [reflexivity | |].
  - apply Nat.Div0.div_lt_upper_bound; lia.
  - apply Nat.mod_upper_bound; lia.
Qed.

Lemma Inst_dec_sym : forall b,
  Byte.of_nat (16 * (nat_of_ascii (Inst.nibble (Byte.to_nat b / 16)) - 65)
               + (nat_of_ascii (Inst.nibble (Byte.to_nat b mod 16)) - 65)) = Some b.
Proof. intros []; reflexivity. Qed.

Lemma Inst_dec_enc : forall d, Inst.dec_data (Inst.enc_data d) = Some d.
Proof.
  induction d as [|b d IH]; [reflexivity|].
  rewrite Inst_enc_data_cons; cbn [Inst.dec_data]; rewrite Inst_dec_sym, IH; reflexivity.
Qed.

Lemma Inst_bech32_tail : forall d v,
  rsplit_1 (String (Inst.variant_char v) (Inst.enc_data d)) = None.
Proof. intros d v; cbn [rsplit_1]; rewrite Inst_enc_data_no_1; destruct v; reflexivity. Qed.

Lemma Inst_b32_round : forall hrp d v,
  Inst.bech32_decode (Inst.bech32_encode hrp d v) = Ok (hrp, d, v).
Proof.
  intros hrp d v; unfold Inst.bech32_decode, Inst.bech32_encode.
  rewrite (rsplit_1_app _ _ (Inst_bech32_tail d v)); cbv beta iota.
  rewrite Inst_dec_enc; destruct v; reflexivity.
Qed.

Lemma Inst_b32_shape : forall hrp d v, exists tail,
  Inst.bech32_encode hrp d v = (hrp ++ String "1" tail)%string /\ rsplit_1 tail = None.
Proof.
  intros hrp d v; exists (String (Inst.variant_char v) (Inst.enc_data d)).
  split; [reflexivity | apply Inst_bech32_tail].
Qed.

Lemma Inst_tb_length : forall prog,
  List.length prog <= 40 -> List.length (Inst.to_base32 prog) <= 64.
Proof. intros prog H; unfold Inst.to_base32; change (List.length (A:=byte) prog <= 64); lia. Qed.

(** A Litecoin testnet Taproot address of the stand-ins. *)
Lemma address_round_trip_witness :
  from_str Inst.table Inst.b58_from_check Inst.bech32_decode Inst.from_base32
    (to_string Inst.table Inst.b58_check_encode Inst.bech32_encode Inst.to_base32
       (Address_p2tr Inst.tap_tweak Inst.table (repeat x02 32) None
          Network.Testnet Blockchain.Litecoin))
  = Ok (Address_p2tr Inst.tap_tweak Inst.table (repeat x02 32) None
          Network.Testnet Blockchain.Litecoin).
Proof.
  destruct Inst_hash_lengths as (H20 & H32 & Ht).
  exact (address_round_trip Inst.table Inst.hash160 Inst.sha256 Inst.tap_tweak
    Inst.b58_check_encode Inst.b58_from_check Inst.bech32_encode Inst.bech32_decode
    Inst.to_base32 Inst.from_base32 Blockchain.Litecoin
    (Address_p2tr Inst.tap_tweak Inst.table (repeat x02 32) None
       Network.Testnet Blockchain.Litecoin)
    H20 H32 Ht eq_refl Inst_b58_round Inst_b58_length
    (fun hrp d v _ _ => Inst_b32_round hrp d v) Inst_b32_shape
    (fun prog => eq_refl) Inst_tb_length
    (c_p2tr Inst.hash160 Inst.sha256 Inst.tap_tweak Inst.table Blockchain.Litecoin
       (repeat x02 32) None Network.Testnet)
    eq_refl).
Defined.

Lemma from_str_base58_payload : forall C b58d s a,
  from_str_base58 C b58d s = Ok a ->
  exists h, payload a = PubkeyHash h \/ payload a = ScriptHash h.
Proof.
  intros C b58d s a H; unfold from_str_base58 in H.
  split_ifs; try discriminate.
  destruct (b58d s); [|discriminate]; cbn in H.
  split_ifs; try discriminate; inv H; cbn; eauto.
Qed.

Lemma constructed_mk_address : forall hash160 sha256 tap_tweak C chain a,
  constructed hash160 sha256 tap_tweak C chain a ->
  exists p n, a = mk_address C p n chain.
Proof.
  intros hash160 sha256 tap_tweak C chain a Hc.
  destruct Hc as [pk n|s n a H|pk n a H|pk n a H|s n|s n|ik mr n|k n Hk|s n a H];
    try (eexists _, n; reflexivity).
  - unfold Address_p2sh in H; destruct (Payload_p2sh hash160 s) as [p|];
      cbn in H; inv H; eauto.
  - unfold Address_p2wpkh in H; destruct (Payload_p2wpkh hash160 pk) as [p|];
      cbn in H; inv H; eauto.
  - unfold Address_p2shwpkh in H; destruct (Payload_p2shwpkh hash160 pk) as [p|];
      cbn in H; inv H; eauto.
  - unfold Address_from_script in H; destruct (Payload_from_script s) as [p|];
      cbn in H; inv H; eauto.
Qed.

(** Claim C1 fails in the code for Stratis witness addresses: when the
    Bech32 text is the hrp, a ['1'] and a tail without ['1'], no witness
    address a named constructor returns for Stratis on Bitcoin or Testnet
    parses back to itself.  [Prefix::from_payload] gives such an address the
    hrp [STRAX] or [TSTRAX], which is not in the [match] of [from_str], so
    its text is read by the Base58 branch, which returns no witness
    program. *)
Theorem stratis_witness_round_trip_fails :
  forall C hash160 sha256 tap_tweak b58e b58d b32e b32d tb fb a,
  (forall hrp d v,
     exists tail, b32e hrp d v = (hrp ++ String "1" tail)%string /\ rsplit_1 tail = None) ->
  constructed hash160 sha256 tap_tweak C Blockchain.Stratis a ->
  (network a = Network.Bitcoin \/ network a = Network.Testnet) ->
  (exists v prog, payload a = WitnessProgram v prog) ->
  from_str C b58d b32d fb (to_string C b58e b32e tb a) <> Ok a.
Proof.
  intros C hash160 sha256 tap_tweak b58e b58d b32e b32d tb fb a D2 Hc Hn (v & prog & Hp) H.
  destruct (constructed_mk_address _ _ _ _ _ _ Hc) as (p & n & ->).
  cbn [payload network mk_address] in Hp, Hn; subst p.
  assert (Hb : bech32_network (find_bech32_prefix
                 (to_string C b58e b32e tb (mk_address C (WitnessProgram v prog) n
                    Blockchain.Stratis))) = None).
  { destruct Hn as [-> | ->];
      unfold to_string, Address_fmt, AddressEncoding_fmt;
      cbn -[bech32_network find_bech32_prefix];
      match goal with |- context [b32e ?h ?d ?var] =>
        destruct (D2 h d var) as [tail [Ht Hr]]; rewrite Ht; unfold find_bech32_prefix;
        rewrite (rsplit_1_app _ _ Hr); reflexivity end. }
  rewrite (from_str_base58_unfold _ _ _ _ _ Hb) in H.
  apply from_str_base58_payload in H; destruct H as (h & [E | E]); discriminate E.
Qed.

(** Counterexample to claim C1: the P2WSH address of the script [OP_1] for
    Stratis on Testnet renders with the hrp [TSTRAX]; parsing its text takes
    the Base58 branch, which fails. *)
Lemma stratis_testnet_p2wsh_round_trip :
  let a := Address_p2wsh Inst.sha256 Inst.table [x51] Network.Testnet Blockchain.Stratis in
  let s := to_string Inst.table Inst.b58_check_encode Inst.bech32_encode Inst.to_base32 a in
  find_bech32_prefix s = "TSTRAX"
  /\ from_str Inst.table Inst.b58_from_check Inst.bech32_decode Inst.from_base32 s
     = from_str_base58 Inst.table Inst.b58_from_check s
  /\ from_str Inst.table Inst.b58_from_check Inst.bech32_decode Inst.from_base32 s <> Ok a.
Proof.
  cbv zeta; split; [vm_compute; reflexivity|]; split; [vm_compute; reflexivity|].
  vm_compute; discriminate.
Qed.

(** ** Further properties of the code *)

(** *** [AddressType] *)

(** [AddressType::from_str] reads back what [Display] writes, accepts no
    other string, and reports any other string in [UnknownAddressType]. *)
Theorem AddressType_from_str_to_string : forall t s,
  AddressType_from_str (AddressType_to_string t) = Ok t
  /\ (AddressType_from_str s = Ok t -> s = AddressType_to_string t)
  /\ (~ In s ["p2pkh"; "p2sh"; "p2wpkh"; "p2wsh"; "p2tr"] ->
      AddressType_from_str s = Err (UnknownAddressType s)).
Proof.
  intros t s; split; [destruct t; reflexivity|]; unfold AddressType_from_str; split.
  - intros H; split_ifs; try discriminate H; inv H;
      match goal with E : String.eqb _ _ = true |- _ => apply String.eqb_eq in E end;
      subst; reflexivity.
  - intros Hn; split_ifs; try reflexivity;
      match goal with E : String.eqb _ _ = true |- _ => apply String.eqb_eq in E end;
      subst; exfalso; apply Hn; simpl; tauto.
Qed.

(** *** Witness versions and opcodes *)

Lemma try_from_opcode_inverse : forall op v,
  try_from_opcode op = Ok v -> opcode_of_version v = op.
Proof. intros op v; destruct op; cbn; intros H; solve [discriminate | inv H; reflexivity]. Qed.

(** [WitnessVersion::try_from(opcode)] succeeds exactly on [OP_0] and
    [OP_PUSHNUM_1..16] (0x51..0x60), fails on any other opcode with
    [MalformedWitnessVersion], and is inverse to [From<WitnessVersion> for
    opcodes::All]. *)
Theorem try_from_opcode_opcode : forall op v,
  (is_ok (try_from_opcode op) = true <-> Byte.to_nat op = 0 \/ 81 <= Byte.to_nat op <= 96)
  /\ (is_ok (try_from_opcode op) = false -> try_from_opcode op = Err MalformedWitnessVersion)
  /\ (try_from_opcode op = Ok v <-> opcode_of_version v = op).
Proof.
  intros op v; split; [|split].
  - destruct op; cbn; split; intros H; solve [reflexivity | lia | discriminate].
  - destruct op; cbn; intros H; solve [reflexivity | discriminate].
  - split; [apply try_from_opcode_inverse|].
    intros <-; destruct (opcode_of_version_shape v) as (_ & _ & _ & H & _); exact H.
Qed.

(** The [expect] of [From<WitnessVersion> for u5] never fails; the symbol
    it gives is read back by [WitnessVersion::try_from(u5)], so distinct
    versions give distinct symbols. *)
Theorem u5_from_version_total : forall v w,
  u5_from_version v = Some (u5_of_version v)
  /\ try_from_u5 (u5_of_version v) = Ok v
  /\ (u5_of_version v = u5_of_version w -> v = w).
Proof.
  intros v w; split; [destruct v; reflexivity|]; split; [apply try_from_u5_version|].
  intros H; pose proof (try_from_u5_version v) as Hv; pose proof (try_from_u5_version w) as Hw.
  rewrite H, Hw in Hv; inv Hv; reflexivity.
Qed.

(** *** The Bech32 prefix *)

Lemma rsplit_1_none : forall s, rsplit_1 s = None <-> has_no_sep s = true.
Proof.
  induction s as [|c s IH]; [split; reflexivity|].
  unfold has_no_sep in *; cbn [rsplit_1 list_ascii_of_string forallb].
  destruct (rsplit_1 s) as [[b a]|].
  - split; intros H; [discriminate|].
    apply andb_true_iff in H; destruct H as [_ H]; apply IH in H; discriminate.
  - rewrite (proj1 IH eq_refl), andb_true_r.
    destruct (Ascii.eqb c "1"); cbn; split; intros; congruence.
Qed.

Lemma rsplit_1_some : forall s before after, rsplit_1 s = Some (before, after) ->
  s = (before ++ String "1" after)%string /\ has_no_sep after = true.
Proof.
  induction s as [|c s IH]; intros before after H; cbn in H; [discriminate|].
  destruct (rsplit_1 s) as [[b a]|] eqn:E.
  - injection H as <- <-; destruct (IH b a eq_refl) as [Hs Ha]; rewrite Hs at 1.
    split; [reflexivity | exact Ha].
  - destruct (Ascii.eqb_spec c "1") as [->|]; [|discriminate].
    injection H as <- <-; split; [reflexivity | apply rsplit_1_none; exact E].
Qed.

(** [find_bech32_prefix] returns the whole text when it has no ['1'];
    otherwise the text is the prefix, a ['1'], and a rest without ['1']:
    the prefix ends before the last ['1']. *)
Theorem find_bech32_prefix_split : forall s,
  (has_no_sep s = true -> find_bech32_prefix s = s)
  /\ (has_no_sep s = false -> exists rest,
        s = (find_bech32_prefix s ++ String "1" rest)%string /\ has_no_sep rest = true).
Proof.
  intros s; unfold find_bech32_prefix; split; intros H.
  - apply rsplit_1_none in H; rewrite H; reflexivity.
  - destruct (rsplit_1 s) as [[b a]|] eqn:E.
    + exists a; apply rsplit_1_some; exact E.
    + apply rsplit_1_none in E; congruence.
Qed.

(** *** Nested SegWit payloads *)

(** With hash160 of 20 bytes and SHA-256 of 32 bytes, [Payload::p2shwpkh]
    is [Payload::p2sh] of the [script_pubkey] of [Payload::p2wpkh] (and fails
    with the same error when that does), and [Payload::p2sh] of the
    [script_pubkey] of [Payload::p2wsh] succeeds with [Payload::p2shwsh]. *)
Theorem p2sh_nested_segwit : forall hash160 sha256 pk s,
  (forall x, List.length (hash160 x) = 20) ->
  (forall x, List.length (sha256 x) = 32) ->
  (forall p, Payload_p2wpkh hash160 pk = Ok p ->
     Payload_p2shwpkh hash160 pk = Payload_p2sh hash160 (script_pubkey p))
  /\ (forall e, Payload_p2wpkh hash160 pk = Err e -> Payload_p2shwpkh hash160 pk = Err e)
  /\ Payload_p2sh hash160 (script_pubkey (Payload_p2wsh sha256 s))
     = Ok (Payload_p2shwsh hash160 sha256 s).
Proof.
  intros hash160 sha256 pk s H20 H32; split; [|split].
  - intros p; unfold Payload_p2wpkh, Payload_p2shwpkh, wpubkey_hash.
    destruct (pk_compressed pk); cbn [bind ok_or]; intros H; inv H.
    unfold Payload_p2sh, script_pubkey, new_witness_program.
    change (opcode_of_version V0) with x00.
    destruct (push_slice_short (hash160 (pk_serialize pk))) as [n [Hp _]]; [rewrite H20; lia|].
    rewrite Hp; cbn [List.length]; rewrite H20; reflexivity.
  - intros e; unfold Payload_p2wpkh, Payload_p2shwpkh, wpubkey_hash.
    destruct (pk_compressed pk); cbn [bind ok_or]; intros H; [discriminate | exact H].
  - unfold Payload_p2sh, Payload_p2wsh, Payload_p2shwsh, script_pubkey, new_witness_program.
    change (opcode_of_version V0) with x00.
    destruct (push_slice_short (wscript_hash sha256 s)) as [n [Hp _]];
      [unfold wscript_hash; rewrite H32; lia|].
    rewrite Hp; cbn [List.length]; unfold wscript_hash; rewrite H32; reflexivity.
Qed.

(** *** Address types of the named constructors *)

(** With hash160 of 20 bytes, SHA-256 of 32 bytes and a 32-byte tweak,
    [address_type] of what each named constructor returns is the type it
    is named after (P2sh for the nested SegWit ones). *)
Theorem address_type_constructors :
  forall hash160 sha256 tap_tweak C pk s ik mr k n chain a,
  (forall x, List.length (hash160 x) = 20) ->
  (forall x, List.length (sha256 x) = 32) ->
  (forall k r, List.length (tap_tweak k r) = 32) ->
  address_type (Address_p2pkh hash160 C pk n chain) = Some P2pkh
  /\ (Address_p2sh hash160 C s n chain = Ok a -> address_type a = Some P2sh)
  /\ (Address_p2wpkh hash160 C pk n chain = Ok a -> address_type a = Some P2wpkh)
  /\ (Address_p2shwpkh hash160 C pk n chain = Ok a -> address_type a = Some P2sh)
  /\ address_type (Address_p2wsh sha256 C s n chain) = Some P2wsh
  /\ address_type (Address_p2shwsh hash160 sha256 C s n chain) = Some P2sh
  /\ address_type (Address_p2tr tap_tweak C ik mr n chain) = Some P2tr
  /\ (List.length k = 32 -> address_type (Address_p2tr_tweaked C k n chain) = Some P2tr).
Proof.
  intros hash160 sha256 tap_tweak C pk s ik mr k n chain a H20 H32 Ht.
  split; [reflexivity|]; split; [|split; [|split; [|split; [|split; [|split]]]]].
  - unfold Address_p2sh, Payload_p2sh; split_ifs; cbn [bind]; intros H; inv H; reflexivity.
  - unfold Address_p2wpkh, Payload_p2wpkh, wpubkey_hash.
    destruct (pk_compressed pk); cbn [bind ok_or]; intros H; inv H.
    unfold address_type; cbn [payload mk_address]; rewrite H20; reflexivity.
  - unfold Address_p2shwpkh, Payload_p2shwpkh, wpubkey_hash.
    destruct (pk_compressed pk); cbn [bind ok_or]; intros H; inv H; reflexivity.
  - unfold address_type; cbn [payload mk_address Address_p2wsh Payload_p2wsh wscript_hash].
    rewrite H32; reflexivity.
  - reflexivity.
  - unfold address_type; cbn [payload mk_address Address_p2tr Payload_p2tr].
    rewrite Ht; reflexivity.
  - intros Hk; unfold address_type; cbn [payload mk_address Address_p2tr_tweaked Payload_p2tr_tweaked].
    rewrite Hk; reflexivity.
Qed.

(** *** Keys related to an address *)

Lemma bytes_eqb_refl : forall l, bytes_eqb l l = true.
Proof.
  induction l as [|b l IH]; [reflexivity|]; cbn [bytes_eqb].
  rewrite (Byte.byte_dec_lb (x:=b) (y:=b) eq_refl), IH; reflexivity.
Qed.

(** With hash160 of 20 bytes, [is_related_to_pubkey] holds between a key
    and its P2PKH, P2WPKH and P2SH-wrapped P2WPKH addresses, and the
    P2TR address whose output key is the key's x-only serialization. *)
Theorem is_related_to_pubkey_constructors : forall hash160 xonly C pk n chain a,
  (forall x, List.length (hash160 x) = 20) ->
  is_related_to_pubkey hash160 xonly (Address_p2pkh hash160 C pk n chain) pk = true
  /\ (Address_p2wpkh hash160 C pk n chain = Ok a -> is_related_to_pubkey hash160 xonly a pk = true)
  /\ (Address_p2shwpkh hash160 C pk n chain = Ok a -> is_related_to_pubkey hash160 xonly a pk = true)
  /\ is_related_to_pubkey hash160 xonly (Address_p2tr_tweaked C (xonly pk) n chain) pk = true.
Proof.
  intros hash160 xonly C pk n chain a H20; unfold is_related_to_pubkey; split; [|split; [|split]].
  - cbn [payload mk_address Address_p2pkh Payload_p2pkh as_bytes].
    rewrite bytes_eqb_refl; reflexivity.
  - unfold Address_p2wpkh, Payload_p2wpkh, wpubkey_hash.
    destruct (pk_compressed pk); cbn [bind ok_or]; intros H; inv H.
    cbn [payload mk_address as_bytes]; unfold pubkey_hash; rewrite bytes_eqb_refl; reflexivity.
  - unfold Address_p2shwpkh, Payload_p2shwpkh, wpubkey_hash.
    destruct (pk_compressed pk); cbn [bind ok_or]; intros H; inv H.
    assert (Hp : push_slice (hash160 (pk_serialize pk)) = x14 :: hash160 (pk_serialize pk))
      by (unfold push_slice; rewrite H20; reflexivity).
    cbn [payload mk_address as_bytes]; rewrite Hp.
    unfold segwit_redeem_hash, script_hash, pubkey_hash; cbn [app].
    rewrite bytes_eqb_refl, !orb_true_r; reflexivity.
  - cbn [payload mk_address Address_p2tr_tweaked Payload_p2tr_tweaked as_bytes].
    rewrite bytes_eqb_refl, orb_true_r; reflexivity.
Qed.

(** *** The QR-code URI *)

(** [to_qr_uri] is [bitcoin:] followed by the address as [to_string]
    renders it for a Base58 address, and all of that in upper case for a
    witness address. *)
Theorem to_qr_uri_case : forall C b58e b32e tb a,
  to_qr_uri C b58e b32e tb a =
  match payload a with
  | WitnessProgram _ _ => string_upper ("bitcoin:" ++ to_string C b58e b32e tb a)
  | PubkeyHash _ | ScriptHash _ => ("bitcoin:" ++ to_string C b58e b32e tb a)%string
  end.
Proof.
  intros C b58e b32e tb a; unfold to_qr_uri, to_string, Address_fmt, AddressEncoding_fmt.
  destruct (payload a); reflexivity.
Qed.

(** *** Scripts read back by [from_script] *)

Lemma is_p2pkh_canonical : forall s, is_p2pkh s = true -> new_p2pkh (firstn 20 (skipn 3 s)) = s.
Proof.
  intros s H; do 25 (destruct s as [|? s]; [discriminate|]); destruct s; [|discriminate].
  unfold is_p2pkh, byte_at in H; cbn [nth List.length Nat.eqb andb] in H.
  repeat match goal with H : _ && _ = true |- _ => apply andb_true_iff in H; destruct H end;
  repeat match goal with H : Byte.eqb _ _ = true |- _ => apply Byte.byte_dec_bl in H; subst end;
  reflexivity.
Qed.

Lemma is_p2sh_canonical : forall s, is_p2sh s = true -> new_p2sh (firstn 20 (skipn 2 s)) = s.
Proof.
  intros s H; do 23 (destruct s as [|? s]; [discriminate|]); destruct s; [|discriminate].
  unfold is_p2sh, byte_at in H; cbn [nth List.length Nat.eqb andb] in H.
  repeat match goal with H : _ && _ = true |- _ => apply andb_true_iff in H; destruct H end;
  repeat match goal with H : Byte.eqb _ _ = true |- _ => apply Byte.byte_dec_bl in H; subst end;
  reflexivity.
Qed.

Lemma is_witness_program_canonical : forall s v,
  is_witness_program s = true -> try_from_opcode (byte_at s 0) = Ok v ->
  new_witness_program v (skipn 2 s) = s.
Proof.
  intros s v H Hv; destruct s as [|b0 [|b1 rest]]; [discriminate|discriminate|].
  unfold is_witness_program, byte_at in H; cbn [nth List.length] in H.
  repeat rewrite andb_true_iff in H; destruct H as [_ E]; apply Nat.eqb_eq in E.
  change (byte_at (b0 :: b1 :: rest) 0) with b0 in Hv.
  unfold new_witness_program, push_slice; cbn [skipn].
  rewrite (try_from_opcode_inverse _ _ Hv).
  assert (Byte.of_nat (List.length rest) = Some b1) as -> by (apply Byte.to_of_nat_iff; lia).
  reflexivity.
Qed.

(** [Payload::from_script] accepts only canonical scripts: whenever it
    returns a payload, that payload's [script_pubkey()] is the script it
    was given, and the payload is a 20-byte hash or a witness program of 2
    to 40 bytes (20 or 32 for version 0). *)
Theorem from_script_canonical : forall s p,
  Payload_from_script s = Ok p -> script_pubkey p = s /\ payload_wf p.
Proof.
  intros s p H; split; [|exact (from_script_wf s p H)].
  unfold Payload_from_script in H.
  destruct (is_p2pkh s) eqn:E1.
  { pose proof (is_p2pkh_canonical s E1) as Hs; inv H; exact Hs. }
  destruct (is_p2sh s) eqn:E2.
  { pose proof (is_p2sh_canonical s E2) as Hs; inv H; exact Hs. }
  destruct (is_witness_program s) eqn:E3; [|discriminate].
  destruct (_ && _); [discriminate|].
  destruct (try_from_opcode (byte_at s 0)) as [v|] eqn:Ev; cbn [bind] in H; [|discriminate].
  pose proof (is_witness_program_canonical s v E3 Ev) as Hs; inv H; exact Hs.
Qed.

(** With hash160 of 20 bytes, SHA-256 of 32 bytes and a 32-byte tweak,
    [Address::from_script] of an address's [script_pubkey()], on the
    address's network and coin, gives the address back. *)
Theorem address_from_script_script_pubkey : forall hash160 sha256 tap_tweak C chain a,
  (forall x, List.length (hash160 x) = 20) ->
  (forall x, List.length (sha256 x) = 32) ->
  (forall k r, List.length (tap_tweak k r) = 32) ->
  constructed hash160 sha256 tap_tweak C chain a ->
  Address_from_script C (script_pubkey (payload a)) (network a) chain = Ok a.
Proof.
  intros hash160 sha256 tap_tweak C chain a H20 H32 Ht Hc.
  destruct (constructed_shape _ _ _ _ _ _ H20 H32 Ht Hc) as (p & n & -> & Hwf).
  unfold Address_from_script; cbn [payload network mk_address].
  rewrite (from_script_script_pubkey_wf p Hwf); reflexivity.
Qed.

(** *** Parsing rendered addresses on every network *)

(** Under the contracts of [address_round_trip], an address a named constructor
    returns, rendered and parsed back, keeps its payload and prefix, and its
    network may change (Signet to Testnet for witness addresses; Regtest
    and Signet to Testnet for Base58 ones) only to one
    [is_valid_for_network] accepts for the original network.  For a
    witness payload the coin is Bitcoin, or Litecoin on Bitcoin or Testnet;
    for a Base58 payload the rendering's text before its last ['1'] is no
    Bech32 prefix. *)
Theorem parse_rendered_valid_for_network :
  forall C hash160 sha256 tap_tweak b58e b58d b32e b32d tb fb chain a,
  (forall x, List.length (hash160 x) = 20) ->
  (forall x, List.length (sha256 x) = 32) ->
  (forall k r, List.length (tap_tweak k r) = 32) ->
  table_functional C = true ->
  (forall d, b58d (b58e d) = Ok d) ->
  (forall d, List.length d = 21 -> String.length (b58e d) <= 50) ->
  (forall hrp d v, valid_hrp hrp = true ->
     String.length hrp + List.length d <= 83 -> b32d (b32e hrp d v) = Ok (hrp, d, v)) ->
  (forall hrp d v,
     exists tail, b32e hrp d v = (hrp ++ String "1" tail)%string /\ rsplit_1 tail = None) ->
  (forall prog, fb (tb prog) = Ok prog) ->
  (forall prog, List.length prog <= 40 -> List.length (tb prog) <= 64) ->
  constructed hash160 sha256 tap_tweak C chain a ->
  match payload a with
  | WitnessProgram _ _ =>
      chain = Blockchain.Bitcoin
      \/ (chain = Blockchain.Litecoin
          /\ (network a = Network.Bitcoin \/ network a = Network.Testnet))
  | PubkeyHash _ | ScriptHash _ =>
      bech32_network (find_bech32_prefix (to_string C b58e b32e tb a)) = None
  end ->
  exists n,
    from_str C b58d b32d fb (to_string C b58e b32e tb a)
    = Ok {| payload := payload a; network := n; prefix := prefix a |}
    /\ is_valid_for_network {| payload := payload a; network := n; prefix := prefix a |}
         (network a) = true.
Proof.
  intros C hash160 sha256 tap_tweak b58e b58d b32e b32d tb fb chain a
    H20 H32 Ht Hf B1 B2 D1 D2 D3 D4 Hc Hs.
  destruct (constructed_shape _ _ _ _ _ _ H20 H32 Ht Hc) as (p & n & -> & Hwf).
  destruct p as [h|h|v prog]; cbn [payload network mk_address] in Hs.
  - rewrite (from_str_base58_unfold _ _ _ _ _ Hs); destruct n, chain; cbn -[from_str_base58];
      (match goal with |- exists _, from_str_base58 _ _ (b58e (?b :: h)) = _ /\ _ =>
         destruct (from_str_base58_legacy C b58d _ b h Hf
                     (B2 (b :: h) ltac:(cbn; cbn in Hwf; lia)) (B1 _) Hwf)
           as (L1 & L2 & L3 & L4) end;
       eexists; split;
       [ first [ solve [apply L1; cbn; auto 10] | solve [apply L2; cbn; auto 10]
               | solve [apply L3; cbn; auto 10] | solve [apply L4; cbn; auto 10] ]
       | reflexivity ]).
  - rewrite (from_str_base58_unfold _ _ _ _ _ Hs); destruct n, chain; cbn -[from_str_base58];
      (match goal with |- exists _, from_str_base58 _ _ (b58e (?b :: h)) = _ /\ _ =>
         destruct (from_str_base58_legacy C b58d _ b h Hf
                     (B2 (b :: h) ltac:(cbn; cbn in Hwf; lia)) (B1 _) Hwf)
           as (L1 & L2 & L3 & L4) end;
       eexists; split;
       [ first [ solve [apply L1; cbn; auto 10] | solve [apply L2; cbn; auto 10]
               | solve [apply L3; cbn; auto 10] | solve [apply L4; cbn; auto 10] ]
       | reflexivity ]).
  - destruct n, chain; try solve [exfalso; intuition discriminate];
      (eexists; split;
      [ first
          [ exact (from_str_segwit C b58d b32e b32d tb fb D1 D2 D3 D4 "bc" Network.Bitcoin
                     v prog eq_refl ltac:(cbn; lia) eq_refl Hwf)
          | exact (from_str_segwit C b58d b32e b32d tb fb D1 D2 D3 D4 "ltc" Network.Bitcoin
                     v prog eq_refl ltac:(cbn; lia) eq_refl Hwf)
          | exact (from_str_segwit C b58d b32e b32d tb fb D1 D2 D3 D4 "tb" Network.Testnet
                     v prog eq_refl ltac:(cbn; lia) eq_refl Hwf)
          | exact (from_str_segwit C b58d b32e b32d tb fb D1 D2 D3 D4 "tltc" Network.Testnet
                     v prog eq_refl ltac:(cbn; lia) eq_refl Hwf)
          | exact (from_str_segwit C b58d b32e b32d tb fb D1 D2 D3 D4 "bcrt" Network.Regtest
                     v prog eq_refl ltac:(cbn; lia) eq_refl Hwf) ]
      | reflexivity ]).
Qed.

(** *** Witness addresses without a known hrp *)

(** When the Bech32 text is the hrp, a ['1'] and a tail without ['1'], a
    witness address on Dogecoin or Stratis, or on Litecoin over Signet or
    Regtest, renders to text that [Address::from_str] sends to the Base58
    branch, so it never parses back to a witness address. *)
Theorem unsupported_segwit_parsed_as_base58 :
  forall C b58e b58d b32e b32d tb fb v prog n chain,
  (forall hrp d v,
     exists tail, b32e hrp d v = (hrp ++ String "1" tail)%string /\ rsplit_1 tail = None) ->
  chain = Blockchain.Dogecoin \/ chain = Blockchain.Stratis
  \/ (chain = Blockchain.Litecoin /\ (n = Network.Signet \/ n = Network.Regtest)) ->
  let s := to_string C b58e b32e tb (mk_address C (WitnessProgram v prog) n chain) in
  from_str C b58d b32d fb s = from_str_base58 C b58d s
  /\ (forall a', from_str C b58d b32d fb s = Ok a' ->
        exists h, payload a' = PubkeyHash h \/ payload a' = ScriptHash h).
Proof.
  intros C b58e b58d b32e b32d tb fb v prog n chain D2 Hc s.
  assert (Hn : bech32_network (find_bech32_prefix s) = None).
  { subst s; destruct Hc as [-> | [-> | [-> [-> | ->]]]]; try destruct n;
      unfold to_string, Address_fmt, AddressEncoding_fmt;
      cbn -[bech32_network find_bech32_prefix];
      match goal with |- context [b32e ?h ?d ?var] =>
        destruct (D2 h d var) as [tail [Ht Hr]]; rewrite Ht; unfold find_bech32_prefix;
        rewrite (rsplit_1_app _ _ Hr); reflexivity end. }
  rewrite (from_str_base58_unfold _ _ _ _ _ Hn); split; [reflexivity|].
  apply from_str_base58_payload.
Qed.

(** *** The upper-case rendering *)





(** *** Witnesses on the stand-ins *)






Lemma p2sh_nested_segwit_witness :
  Payload_p2shwpkh Inst.hash160 Inst.key
  = Payload_p2sh Inst.hash160 (script_pubkey (WitnessProgram V0 (Inst.hash160 (pk_serialize Inst.key))))
  /\ Payload_p2sh Inst.hash160 (script_pubkey (Payload_p2wsh Inst.sha256 [x51]))
     = Ok (Payload_p2shwsh Inst.hash160 Inst.sha256 [x51]).
Proof.
  destruct Inst_hash_lengths as (H20 & H32 & _).
  destruct (p2sh_nested_segwit Inst.hash160 Inst.sha256 Inst.key [x51] H20 H32) as (A & _ & B).
  split; [apply A; reflexivity | exact B].
Defined.

Lemma address_type_constructors_witness :
  address_type (Address_p2wsh Inst.sha256 Inst.table [x51] Network.Bitcoin Blockchain.Bitcoin)
  = Some P2wsh.
Proof.
  destruct Inst_hash_lengths as (H20 & H32 & Ht).
  destruct (address_type_constructors Inst.hash160 Inst.sha256 Inst.tap_tweak Inst.table
              Inst.key [x51] [] None [] Network.Bitcoin Blockchain.Bitcoin
              (Address_p2pkh Inst.hash160 Inst.table Inst.key Network.Bitcoin Blockchain.Bitcoin)
              H20 H32 Ht) as (_ & _ & _ & _ & W & _).
  exact W.
Defined.

Lemma is_related_to_pubkey_constructors_witness :
  exists a,
    Address_p2shwpkh Inst.hash160 Inst.table Inst.key Network.Bitcoin Blockchain.Bitcoin = Ok a
    /\ is_related_to_pubkey Inst.hash160 (fun _ => []) a Inst.key = true.
Proof.
  destruct Inst_hash_lengths as (H20 & _ & _).
  eexists; split; [reflexivity|].
  match goal with |- is_related_to_pubkey _ _ ?a _ = true =>
    destruct (is_related_to_pubkey_constructors Inst.hash160 (fun _ => []) Inst.table Inst.key
                Network.Bitcoin Blockchain.Bitcoin a H20) as (_ & _ & W & _) end.
  apply W; reflexivity.
Defined.

Lemma from_script_canonical_witness :
  script_pubkey (WitnessProgram V2 [x01; x02]) = [x52; x02; x01; x02]
  /\ payload_wf (WitnessProgram V2 [x01; x02]).
Proof. apply (from_script_canonical [x52; x02; x01; x02]); reflexivity. Defined.

Lemma address_from_script_script_pubkey_witness :
  Address_from_script Inst.table
    (script_pubkey (payload (Address_p2tr Inst.tap_tweak Inst.table (repeat x02 32) None
                               Network.Signet Blockchain.Bitcoin)))
    Network.Signet Blockchain.Bitcoin
  = Ok (Address_p2tr Inst.tap_tweak Inst.table (repeat x02 32) None
          Network.Signet Blockchain.Bitcoin).
Proof.
  destruct Inst_hash_lengths as (H20 & H32 & Ht).
  exact (address_from_script_script_pubkey Inst.hash160 Inst.sha256 Inst.tap_tweak Inst.table
    Blockchain.Bitcoin
    (Address_p2tr Inst.tap_tweak Inst.table (repeat x02 32) None Network.Signet Blockchain.Bitcoin)
    H20 H32 Ht
    (c_p2tr Inst.hash160 Inst.sha256 Inst.tap_tweak Inst.table Blockchain.Bitcoin
       (repeat x02 32) None Network.Signet)).
Defined.

(** A Regtest P2PKH address of the stand-ins parses as a Testnet address
    that Regtest accepts. *)
Lemma parse_rendered_valid_for_network_witness :
  exists n,
    from_str Inst.table Inst.b58_from_check Inst.bech32_decode Inst.from_base32
      (to_string Inst.table Inst.b58_check_encode Inst.bech32_encode Inst.to_base32
         (Address_p2pkh Inst.hash160 Inst.table Inst.key Network.Regtest Blockchain.Bitcoin))
    = Ok {| payload := payload (Address_p2pkh Inst.hash160 Inst.table Inst.key
                                  Network.Regtest Blockchain.Bitcoin);
            network := n;
            prefix := prefix (Address_p2pkh Inst.hash160 Inst.table Inst.key
                                Network.Regtest Blockchain.Bitcoin) |}
    /\ is_valid_for_network
         {| payload := payload (Address_p2pkh Inst.hash160 Inst.table Inst.key
                                  Network.Regtest Blockchain.Bitcoin);
            network := n;
            prefix := prefix (Address_p2pkh Inst.hash160 Inst.table Inst.key
                                Network.Regtest Blockchain.Bitcoin) |}
         Network.Regtest = true.
Proof.
  destruct Inst_hash_lengths as (H20 & H32 & Ht).
  exact (parse_rendered_valid_for_network Inst.table Inst.hash160 Inst.sha256 Inst.tap_tweak
    Inst.b58_check_encode Inst.b58_from_check Inst.bech32_encode Inst.bech32_decode
    Inst.to_base32 Inst.from_base32 Blockchain.Bitcoin
    (Address_p2pkh Inst.hash160 Inst.table Inst.key Network.Regtest Blockchain.Bitcoin)
    H20 H32 Ht eq_refl Inst_b58_round Inst_b58_length
    (fun hrp d v _ _ => Inst_b32_round hrp d v) Inst_b32_shape
    (fun prog => eq_refl) Inst_tb_length
    (c_p2pkh Inst.hash160 Inst.sha256 Inst.tap_tweak Inst.table Blockchain.Bitcoin
       Inst.key Network.Regtest)
    ltac:(vm_compute; reflexivity)).
Defined.

Lemma unsupported_segwit_parsed_as_base58_witness :
  from_str Inst.table Inst.b58_from_check Inst.bech32_decode Inst.from_base32
    (to_string Inst.table Inst.b58_check_encode Inst.bech32_encode Inst.to_base32
       (mk_address Inst.table (WitnessProgram V0 (repeat x00 32))
          Network.Bitcoin Blockchain.Dogecoin))
  = from_str_base58 Inst.table Inst.b58_from_check
      (to_string Inst.table Inst.b58_check_encode Inst.bech32_encode Inst.to_base32
         (mk_address Inst.table (WitnessProgram V0 (repeat x00 32))
            Network.Bitcoin Blockchain.Dogecoin)).
Proof.
  exact (proj1 (unsupported_segwit_parsed_as_base58 Inst.table Inst.b58_check_encode
    Inst.b58_from_check Inst.bech32_encode Inst.bech32_decode Inst.to_base32 Inst.from_base32
    V0 (repeat x00 32) Network.Bitcoin Blockchain.Dogecoin Inst_b32_shape (or_introl eq_refl))).
Defined.


Lemma stratis_witness_round_trip_fails_witness :
  from_str Inst.table Inst.b58_from_check Inst.bech32_decode Inst.from_base32
    (to_string Inst.table Inst.b58_check_encode Inst.bech32_encode Inst.to_base32
       (Address_p2wsh Inst.sha256 Inst.table [x51] Network.Bitcoin Blockchain.Stratis))
  <> Ok (Address_p2wsh Inst.sha256 Inst.table [x51] Network.Bitcoin Blockchain.Stratis).
Proof.
  exact (stratis_witness_round_trip_fails Inst.table Inst.hash160 Inst.sha256 Inst.tap_tweak
    Inst.b58_check_encode Inst.b58_from_check Inst.bech32_encode Inst.bech32_decode
    Inst.to_base32 Inst.from_base32
    (Address_p2wsh Inst.sha256 Inst.table [x51] Network.Bitcoin Blockchain.Stratis)
    Inst_b32_shape
    (c_p2wsh Inst.hash160 Inst.sha256 Inst.tap_tweak Inst.table Blockchain.Stratis
       [x51] Network.Bitcoin)
    (or_introl eq_refl) (ex_intro _ V0 (ex_intro _ _ eq_refl))).
Defined.
